(** * LiveProof scoring pipeline (server.py): shallow embedding and properties

    The development follows [server.py]: the Feature Vector Builder
    ([extract_feature_vector]), the Normalizer ([normalize_features]), the
    rule-based scorer ([fallback_scoring]), the Explainability Ranker
    ([get_feature_importance]), the orchestrator ([verify]), the status
    endpoints and [load_model]; and the end of [train_model] of
    train_model.py, which writes the artifact that [load_model] reads.

    Python floats are IEEE 754 binary64, embedded as Rocq's primitive
    floats: every float literal of the source ([0.15], [0.6], ...) is the
    nearest binary64 value and [+], [-], [/], [<], [>] on floats are the
    binary64 operations, so that a score computed here is the score the
    program computes, bit for bit.  Python integers are unbounded ([Z]).

    Scope of the value model.  A feature value is a JSON scalar: [null], a
    boolean, an integer, a float or a string.  JSON arrays and objects as
    feature values are outside the model: what numpy builds from nested
    sequences depends on their lengths and on its version. *)

From Stdlib Require Import ZArith Floats Sorted Permutation.
From stdpp Require Import gmap strings list.

Set Warnings "-inexact-float".
Set Default Proof Using "Type".

(* ===================================================================== *)
(** ** Python values, exceptions and the operations the pipeline uses *)
(* ===================================================================== *)

Module Py.

(** A value found in the request's [features] object. *)
Inductive pyval : Type :=
| PyNone
| PyBool (b : bool)
| PyInt (n : Z)
| PyFloat (x : float)
| PyStr (s : string).

(** The exceptions that the modelled code can raise.  [ModelError] stands
    for whatever the trained artifact's [predict_proba] raises, and
    [BadRequest] is what Flask raises on a body that does not parse. *)
Inductive exn : Type :=
| TypeError
| IndexError
| ModelError
| OverflowError
| AttributeError
| BadRequest.

Inductive result (A : Type) : Type :=
| Ok (a : A)
| Raise (e : exn).
Arguments Ok {A} a.
Arguments Raise {A} e.

Definition bind {A B : Type} (c : result A) (k : A -> result B) : result B :=
  match c with
  | Ok a => k a
  | Raise e => Raise e
  end.

(** [d.get(k, dflt)] *)
Definition dict_get (d : gmap string pyval) (k : string) (dflt : pyval) : pyval :=
  match d !! k with
  | Some v => v
  | None => dflt
  end.

(** [float(n)]: the binary64 number nearest to the integer [n], ties to
    even (infinite beyond the float range, where Python raises; the
    pipeline converts no such integer). *)
Definition float_of_Z (n : Z) : float :=
  SF2Prim (binary_normalize prec emax n 0 false).

(** The integer [n] as an exact, unrounded float specification. *)
Definition SF_of_Z (n : Z) : spec_float :=
  match n with
  | Z0 => S754_zero false
  | Zpos p => S754_finite false p 0
  | Zneg p => S754_finite true p 0
  end.

(** The quotient [n / d] of two integers does not round to a float: its
    magnitude is at least [2^1024 - 2^970], the midpoint above the largest
    float. *)
Definition int_overflows (n d : Z) : bool :=
  ((2 ^ 1024 - 2 ^ 970) * Z.abs d <=? Z.abs n)%Z.

(** [n / d] on two integers, [d] not 0: the float nearest to the exact
    quotient, or [OverflowError]. *)
Definition int_truediv (n d : Z) : result float :=
  if int_overflows n d then Raise OverflowError
  else Ok (SF2Prim (SFdiv prec emax (SF_of_Z n) (SF_of_Z d))).

(** [n > c] for an integer and a float: Python compares the two exactly. *)
Definition Z_gt_float (n : Z) (c : float) : bool :=
  match Prim2SF c with
  | S754_nan => false
  | S754_infinity s => s
  | S754_zero _ => (0 <? n)%Z
  | S754_finite s m e =>
      let v := if s then Zneg m else Zpos m in
      if (0 <=? e)%Z then (v * 2 ^ e <? n)%Z
      else (v <? n * 2 ^ (- e))%Z
  end.

(** [v / d] for an integer constant [d]: a [TypeError] on [None] and on
    text; a boolean counts as the integer 0 or 1. *)
Definition truediv (v : pyval) (d : Z) : result float :=
  match v with
  | PyNone => Raise TypeError
  | PyBool b => int_truediv (Z.b2z b) d
  | PyInt n => int_truediv n d
  | PyFloat x => Ok (x / float_of_Z d)%float
  | PyStr _ => Raise TypeError
  end.

(** [v > c] for a numeric constant [c], given by its binary64 value (the
    integer constants of the source are floats exactly). *)
Definition gt (v : pyval) (c : float) : result bool :=
  match v with
  | PyNone => Raise TypeError
  | PyBool b => Ok (Z_gt_float (Z.b2z b) c)
  | PyInt n => Ok (Z_gt_float n c)
  | PyFloat x => Ok (c <? x)%float
  | PyStr _ => Raise TypeError
  end.

(** The builtin [min(a, b)] on two floats: [b] replaces [a] only when
    [b < a]. *)
Definition min (a b : float) : float := if (b <? a)%float then b else a.

(** The builtin [max(a, b)] on two floats: [b] replaces [a] only when
    [b > a]. *)
Definition max (a b : float) : float := if (a <? b)%float then b else a.

(** [l.sort(key=key, reverse=True)]: a stable sort into non-increasing key
    order.  An element is placed after the elements of the sorted tail
    whose key is strictly greater, hence before those with an equal key,
    which came later in the input. *)
Fixpoint insert_desc {A : Type} (key : A -> float) (x : A) (l : list A) : list A :=
  match l with
  | [] => [x]
  | y :: l' =>
      if (key x <? key y)%float then y :: insert_desc key x l'
      else x :: y :: l'
  end.

Definition sort_desc {A : Type} (key : A -> float) (l : list A) : list A :=
  foldr (insert_desc key) [] l.

(** Vocabulary for sorted lists.  [a] may stand before [b] in a list in
    non-increasing key order. *)
Definition key_ge {A : Type} (key : A -> float) (a b : A) : Prop :=
  (key b <=? key a)%float = true.

(** The key of [x] is a number (not NaN). *)
Definition key_number {A : Type} (key : A -> float) (x : A) : Prop :=
  (key x <=? key x)%float = true.

(** The elements whose key ties with [k], in the order of the list. *)
Definition ties {A : Type} (key : A -> float) (k : float) (l : list A) : list A :=
  List.filter (fun x => (key x =? k)%float) l.

End Py.

(** [x ← c; k] runs [c] and passes its value to [k]; an exception raised
    by [c] ends the computation. *)
#[export] Instance result_bind : MBind Py.result :=
  fun A B k c => Py.bind c k.

Abbreviation dict := (gmap string Py.pyval).

(* ===================================================================== *)
(** ** The numpy array built by the pipeline *)
(* ===================================================================== *)

Module Np.
Import Py.

(** A [(1, n)] array, given by its element type and its only row.  A text
    array stores every cell as text; its cells are kept here as they were
    given, no operation of the pipeline reads the text itself.  An object
    array holds the Python values themselves. *)
Inductive ndarray : Type :=
| Float64 (row : list float)
| Int64 (row : list Z)
| UInt64 (row : list Z)
| Bool (row : list bool)
| Text (row : list pyval)
| Object (row : list pyval).

Inductive dtype : Type :=
| DBool | DInt64 | DUInt64 | DFloat64 | DText | DObject.

(** The element type [np.array] finds for one Python value: an integer is
    [int64] when it fits, else [uint64] when it fits, else an object. *)
Definition dtype_of_value (v : pyval) : dtype :=
  match v with
  | PyNone => DObject
  | PyBool _ => DBool
  | PyInt n =>
      if ((- 2 ^ 63 <=? n) && (n <? 2 ^ 63))%Z then DInt64
      else if ((0 <=? n) && (n <? 2 ^ 64))%Z then DUInt64
      else DObject
  | PyFloat _ => DFloat64
  | PyStr _ => DText
  end.

(** The common element type of two: booleans give way to integers, mixed
    signed and unsigned integers and anything with a float make floats,
    text beats numbers, an object beats everything. *)
Definition promote (a b : dtype) : dtype :=
  match a, b with
  | DObject, _ | _, DObject => DObject
  | DText, _ | _, DText => DText
  | DFloat64, _ | _, DFloat64 => DFloat64
  | DInt64, DUInt64 | DUInt64, DInt64 => DFloat64
  | DInt64, _ | _, DInt64 => DInt64
  | DUInt64, _ | _, DUInt64 => DUInt64
  | DBool, DBool => DBool
  end.

Definition common_dtype (cells : list pyval) : dtype :=
  match cells with
  | [] => DFloat64
  | v :: cells' =>
      foldl (fun d w => promote d (dtype_of_value w)) (dtype_of_value v) cells'
  end.

(** The conversions of a cell into a numeric array. *)
Definition to_float (v : pyval) : float :=
  match v with
  | PyBool b => float_of_Z (Z.b2z b)
  | PyInt n => float_of_Z n
  | PyFloat x => x
  | _ => 0%float
  end.

Definition to_Z (v : pyval) : Z :=
  match v with
  | PyBool b => Z.b2z b
  | PyInt n => n
  | _ => 0%Z
  end.

Definition to_bool (v : pyval) : bool :=
  match v with
  | PyBool b => b
  | _ => false
  end.

(** [np.array([[c0, ..., cn]])] *)
Definition array (cells : list pyval) : ndarray :=
  match common_dtype cells with
  | DBool => Bool (map to_bool cells)
  | DInt64 => Int64 (map to_Z cells)
  | DUInt64 => UInt64 (map to_Z cells)
  | DFloat64 => Float64 (map to_float cells)
  | DText => Text cells
  | DObject => Object cells
  end.

(** The cast of a float stored into an integer cell: the fraction is cut
    off (a NaN or an infinity has no such cast; none is ever stored). *)
Definition Z_of_float (x : float) : Z :=
  match Prim2SF x with
  | S754_finite s m e =>
      let a := if (0 <=? e)%Z then (Zpos m * 2 ^ e)%Z
               else (Zpos m / 2 ^ (- e))%Z in
      if s then (- a)%Z else a
  | _ => 0%Z
  end.

(** [X[0, j] > c]: an [IndexError] out of range; a cell of a text array is
    a string and its comparison with a number is a [TypeError]; a cell of
    an object array is compared as the Python value it is. *)
Definition gt (X : ndarray) (j : nat) (c : float) : result bool :=
  match X with
  | Float64 row =>
      match row !! j with
      | Some x => Ok (c <? x)%float
      | None => Raise IndexError
      end
  | Int64 row | UInt64 row =>
      match row !! j with
      | Some n => Ok (Z_gt_float n c)
      | None => Raise IndexError
      end
  | Bool row =>
      match row !! j with
      | Some b => Ok (Z_gt_float (Z.b2z b) c)
      | None => Raise IndexError
      end
  | Text row =>
      match row !! j with
      | Some _ => Raise TypeError
      | None => Raise IndexError
      end
  | Object row =>
      match row !! j with
      | Some v => Py.gt v c
      | None => Raise IndexError
      end
  end.

(** [X[0, j] /= d]: reads the cell, divides it by the integer constant
    [d], which gives a float, and stores the quotient back in the same
    cell of the same array, cast to the element type of the array: as it
    is in a float array, with its fraction cut off in an integer array. *)
Definition idiv (X : ndarray) (j : nat) (d : Z) : result ndarray :=
  match X with
  | Float64 row =>
      match row !! j with
      | Some x => Ok (Float64 (<[j := (x / float_of_Z d)%float]> row))
      | None => Raise IndexError
      end
  | Int64 row =>
      match row !! j with
      | Some n =>
          Ok (Int64 (<[j := Z_of_float (float_of_Z n / float_of_Z d)]> row))
      | None => Raise IndexError
      end
  | UInt64 row =>
      match row !! j with
      | Some n =>
          Ok (UInt64 (<[j := Z_of_float (float_of_Z n / float_of_Z d)]> row))
      | None => Raise IndexError
      end
  | Bool row =>
      match row !! j with
      | Some b =>
          Ok (Bool (<[j := negb (float_of_Z (Z.b2z b) / float_of_Z d =? 0)%float]> row))
      | None => Raise IndexError
      end
  | Text row =>
      match row !! j with
      | Some _ => Raise TypeError
      | None => Raise IndexError
      end
  | Object row =>
      match row !! j with
      | Some v =>
          q ← Py.truediv v d;
          Ok (Object (<[j := PyFloat q]> row))
      | None => Raise IndexError
      end
  end.

(** The array holds numbers: its element type is neither text nor
    object. *)
Definition numeric (X : ndarray) : bool :=
  match X with
  | Float64 _ | Int64 _ | UInt64 _ | Bool _ => true
  | Text _ | Object _ => false
  end.

(** The element types that booleans, floats and integers of 64 bits
    make. *)
Definition small (t : dtype) : bool :=
  match t with
  | DBool | DInt64 | DFloat64 => true
  | DUInt64 | DText | DObject => false
  end.

(** The number of columns of the array. *)
Definition ncols (X : ndarray) : nat :=
  match X with
  | Float64 row => length row
  | Int64 row | UInt64 row => length row
  | Bool row => length row
  | Text row | Object row => length row
  end.

(** [float(X[0, j])] on a numeric array. *)
Definition cell_float (X : ndarray) (j : nat) : option float :=
  match X with
  | Float64 row => row !! j
  | Int64 row | UInt64 row => float_of_Z <$> row !! j
  | Bool row => (fun b : bool => float_of_Z (Z.b2z b)) <$> row !! j
  | Text _ | Object _ => None
  end.

End Np.

(* ===================================================================== *)
(** ** server.py *)
(* ===================================================================== *)

Module Server.
Import Py.

Definition feature_names : list string :=
  [ "avg_reaction_time";
    "reaction_time_variance";
    "task_accuracy";
    "hesitation_time";
    "cursor_path_length";
    "cursor_direction_changes";
    "speed_variance" ].

(** The default [0] of every [features.get(name, 0)]: the integer 0. *)
Definition zero : pyval := PyInt 0.

Definition extract_feature_vector (features : dict) : Np.ndarray :=
  Np.array
    [ dict_get features "avg_reaction_time" zero;
      dict_get features "reaction_time_variance" zero;
      dict_get features "task_accuracy" zero;
      dict_get features "hesitation_time" zero;
      dict_get features "cursor_path_length" zero;
      dict_get features "cursor_direction_changes" zero;
      dict_get features "speed_variance" zero ].

(** The array is updated in place and returned; nothing else refers to
    it, so the new array is passed on as the state. *)
Definition normalize_features (X : Np.ndarray) : result Np.ndarray :=
  b0 ← Np.gt X 0 100;
  X ← (if b0 : bool
       then X ← Np.idiv X 0 1000; Np.idiv X 3 1000
       else Ok X);
  b1 ← Np.gt X 1 100000;
  X ← (if b1 : bool then Np.idiv X 1 1000000 else Ok X);
  b4 ← Np.gt X 4 1000;
  X ← (if b4 : bool then Np.idiv X 4 1000 else Ok X);
  Ok X.

(** The value of the local variable [score] of [fallback_scoring] when the
    [return] statement is reached. *)
Definition fallback_score (features : dict) : result float :=
  let score := 0.5%float in
  rt ← truediv (dict_get features "avg_reaction_time" zero) 1000;
  let score :=
    if (rt <? 2)%float then (score + 0.15)%float
    else if (5 <? rt)%float then (score - 0.10)%float
    else score in
  let variance := dict_get features "reaction_time_variance" zero in
  b ← gt variance 100000;
  let score := if b : bool then (score + 0.15)%float else (score - 0.10)%float in
  let accuracy := dict_get features "task_accuracy" zero in
  b ← gt accuracy 0.6;
  let score := if b : bool then (score + 0.10)%float else (score - 0.05)%float in
  let direction_changes := dict_get features "cursor_direction_changes" zero in
  b ← gt direction_changes 5;
  let score := if b : bool then (score + 0.10)%float else score in
  let speed_var := dict_get features "speed_variance" zero in
  b ← gt speed_var 0.01;
  let score := if b : bool then (score + 0.10)%float else score in
  Ok score.

(** [max(0.2, min(0.95, score))] *)
Definition clamp (score : float) : float :=
  Py.max 0.2 (Py.min 0.95 score).

Definition fallback_scoring (features : dict) : result float :=
  score ← fallback_score features;
  Ok (clamp score).

(** A Feature Contribution: one entry of [feature_importance]. *)
Record contribution : Type := Contribution {
  name : string;
  weight : float;
  positive : bool
}.

(** The list [feature_importance] of [get_feature_importance] as the six
    [append]s have built it, before it is sorted. *)
Definition feature_contributions (features : dict) : result (list contribution) :=
  let feature_importance := [] in
  rt ← truediv (dict_get features "avg_reaction_time" zero) 1000;
  let feature_importance :=
    feature_importance ++
    [ if (rt <? 2)%float
      then Contribution "avg_reaction_time" 0.22 true
      else Contribution "avg_reaction_time" (-0.12) false ] in
  let variance := dict_get features "reaction_time_variance" zero in
  b ← gt variance 100000;
  let feature_importance :=
    feature_importance ++
    [ if b : bool
      then Contribution "reaction_time_variance" 0.18 true
      else Contribution "reaction_time_variance" (-0.15) false ] in
  let accuracy := dict_get features "task_accuracy" zero in
  b ← gt accuracy 0.6;
  let feature_importance :=
    feature_importance ++
    [ if b : bool
      then Contribution "task_accuracy" 0.15 true
      else Contribution "task_accuracy" (-0.10) false ] in
  let direction_changes := dict_get features "cursor_direction_changes" zero in
  b ← gt direction_changes 5;
  let feature_importance :=
    feature_importance ++
    [ if b : bool
      then Contribution "cursor_entropy" 0.12 true
      else Contribution "cursor_entropy" 0.05 true ] in
  let speed_var := dict_get features "speed_variance" zero in
  b ← gt speed_var 0.01;
  let feature_importance :=
    feature_importance ++
    [ if b : bool
      then Contribution "speed_variance" 0.14 true
      else Contribution "speed_variance" (-0.08) false ] in
  hesitation ← truediv (dict_get features "hesitation_time" zero) 1000;
  let feature_importance :=
    feature_importance ++
    [ if (0.2 <? hesitation)%float && (hesitation <? 1.5)%float
      then Contribution "hesitation_time" 0.10 true
      else if (hesitation <? 0.2)%float
      then Contribution "hesitation_time" (-0.06) false
      else Contribution "hesitation_time" 0.03 true ] in
  Ok feature_importance.

(** [key=lambda x: abs(x['weight'])] *)
Definition abs_weight (x : contribution) : float := abs (weight x).

(** The parameter [confidence] is not used by the body. *)
Definition get_feature_importance (features : dict) (confidence : float)
  : result (list contribution) :=
  feature_importance ← feature_contributions features;
  Ok (sort_desc abs_weight feature_importance).

(** The loaded artifact, seen through the one call the pipeline makes:
    [model.predict_proba(X)[0][1]], the human-class probability, or the
    exception the call raises. *)
Definition predictor : Type := Np.ndarray -> result float.

(** The member [features] of the request body: a JSON object, or any
    other JSON value ([null], a number, a string, an array). *)
Inductive features_member : Type :=
| FeaturesObject (d : dict)
| FeaturesOther.

(** A request body that is a JSON object: [data.get('sessionId')] and the
    member [features], if there is one. *)
Record request_body : Type := RequestBody {
  body_sessionId : option string;
  body_features : option features_member
}.

(** What [request.json] gives on a body sent as JSON: an object, another
    JSON value ([null], a number, a string, an array), or, on a body that
    does not parse, no value at all: the access raises. *)
Inductive request : Type :=
| JsonObject (data : request_body)
| JsonOther
| NotJson.

(** [data.get('features', {})] *)
Definition features_of (data : request_body) : features_member :=
  match body_features data with
  | Some f => f
  | None => FeaturesObject ∅
  end.

(** The Verification Result. *)
Record response : Type := Response {
  sessionId : option string;
  confidence : float;
  featureImportance : list contribution;
  features : dict;
  timestamp : string;
  modelUsed : string
}.

(** What [verify] returns: the result with status 200, or the error
    object with status 500; [Unhandled] when the handler itself raises and
    the exception leaves [verify]. *)
Inductive reply : Type :=
| Reply200 (r : response)
| Reply500 (e : exn) (session_id : option string)
| Unhandled (e : exn).

(** The body of the [try] block of [verify] once [data] is known to be an
    object.  [model] is the global [model] ([None] when no artifact was
    loaded) and [now] the value of [datetime.now().isoformat()].  The
    first [features.get] raises when [features] is not an object. *)
Definition verify_try (model : option predictor) (now : string)
    (data : request_body) : result response :=
  let session_id := body_sessionId data in
  match features_of data with
  | FeaturesOther => Raise AttributeError
  | FeaturesObject features =>
      let X := extract_feature_vector features in
      X ← normalize_features X;
      confidence ←
        match model with
        | Some m =>
            match m X with
            | Ok confidence => Ok confidence
            | Raise _ => fallback_scoring features
            end
        | None => fallback_scoring features
        end;
      feature_importance ← get_feature_importance features confidence;
      Ok {| sessionId := session_id;
            confidence := confidence;
            featureImportance := feature_importance;
            features := features;
            timestamp := now;
            modelUsed := match model with Some _ => "ML" | None => "Rule-based" end |}
  end.

(** [verify].  When the body is not an object, [data.get] raises in the
    [try] block and again in the handler, which reads the session id the
    same way.  When the body does not parse, [data] was never assigned and
    the handler answers without a session id. *)
Definition verify (model : option predictor) (now : string)
    (req : request) : reply :=
  match req with
  | JsonOther => Unhandled AttributeError
  | NotJson => Reply500 BadRequest None
  | JsonObject data =>
      match verify_try model now data with
      | Ok r => Reply200 r
      | Raise e => Reply500 e (body_sessionId data)
      end
  end.

End Server.

(* ===================================================================== *)
(** ** The Feature Mapping of the data model, and the sample requests *)
(* ===================================================================== *)

Module Model.
Import Py Server.

(** A Feature Mapping of floats: feature names to binary64 numbers.
    [to_dict] is the [features] object that carries it in a request. *)
Definition to_dict (fm : gmap string float) : dict := PyFloat <$> fm.

(** The number the code reads for the feature [k]: the mapping's value,
    or the default [0] when [k] is absent. *)
Definition feature (fm : gmap string float) (k : string) : float :=
  match fm !! k with
  | Some v => v
  | None => 0%float
  end.

(** A JSON number: an integer or a float. *)
Inductive number : Type :=
| NInt (n : Z)
| NFloat (x : float).

Definition of_number (x : number) : pyval :=
  match x with
  | NInt n => PyInt n
  | NFloat x => PyFloat x
  end.

(** A Feature Mapping of numbers, and the [features] object that carries
    it. *)
Definition num_dict (nm : gmap string number) : dict := of_number <$> nm.

(** The number the code reads for the feature [k]. *)
Definition number_at (nm : gmap string number) (k : string) : number :=
  match nm !! k with
  | Some x => x
  | None => NInt 0
  end.

(** [x > c] for a number [x] and a constant [c]. *)
Definition number_gt (x : number) (c : float) : bool :=
  match x with
  | NInt n => Z_gt_float n c
  | NFloat y => (c <? y)%float
  end.

(** The number is a float, or an integer that fits in 64 bits (signed). *)
Definition fits64 (x : number) : bool :=
  match x with
  | NInt n => ((- 2 ^ 63 <=? n) && (n <? 2 ^ 63))%Z
  | NFloat _ => true
  end.

(** Every number under one of the seven names fits in 64 bits. *)
Definition numbers_fit (nm : gmap string number) : bool :=
  forallb (fun k => fits64 (number_at nm k)) feature_names.

(** The request that carries the [features] object [d]. *)
Definition request_of (sid : option string) (d : dict) : request :=
  JsonObject (RequestBody sid (Some (FeaturesObject d))).

(** The request that carries the Feature Mapping [fm]. *)
Definition body_of (sid : option string) (fm : gmap string float) : request :=
  request_of sid (to_dict fm).

(** The human-like sample. *)
Definition human_like : gmap string float :=
  <["avg_reaction_time" := 1800%float]> (
  <["reaction_time_variance" := 500000%float]> (
  <["task_accuracy" := 0.85%float]> (
  <["hesitation_time" := 600%float]> (
  <["cursor_path_length" := 500%float]> (
  <["cursor_direction_changes" := 15%float]> (
  <["speed_variance" := 0.05%float]> ∅)))))).



(** A request whose [avg_reaction_time] is the integer 10^400. *)
Definition huge_reaction_time : gmap string number :=
  <["avg_reaction_time" := NInt (10 ^ 400)]> ∅.

(** A request whose [hesitation_time] is the integer 10^400. *)
Definition huge_hesitation_time : gmap string number :=
  <["hesitation_time" := NInt (10 ^ 400)]> ∅.

(** A request of integers only, in milliseconds. *)
Definition integer_only : gmap string number :=
  <["avg_reaction_time" := NInt 1800]> (
  <["reaction_time_variance" := NInt 500000]> (
  <["hesitation_time" := NInt 600]> (
  <["cursor_path_length" := NInt 5000]> ∅))).

(** The same request with its numbers written as floats. *)
Definition integer_only_as_floats : gmap string number :=
  <["avg_reaction_time" := NFloat 1800]> (
  <["reaction_time_variance" := NFloat 500000]> (
  <["hesitation_time" := NFloat 600]> (
  <["cursor_path_length" := NFloat 5000]> ∅))).

(** An artifact whose probability call raises on every input. *)
Definition failing_model : predictor := fun _ => Raise ModelError.

(** An artifact that answers with cell 3 of the vector it is given. *)
Definition cell3_model : predictor :=
  fun X => match Np.cell_float X 3 with
           | Some x => Ok x
           | None => Raise ModelError
           end.

End Model.

(* ===================================================================== *)
(** ** What each function reads of the [features] object *)
(* ===================================================================== *)

Module Reads.
Import Py Server.

(** The names that [fallback_scoring] passes to [features.get]. *)
Definition scoring_names : list string :=
  [ "avg_reaction_time";
    "reaction_time_variance";
    "task_accuracy";
    "cursor_direction_changes";
    "speed_variance" ].

(** The names that [get_feature_importance] passes to [features.get]. *)
Definition ranking_names : list string :=
  [ "avg_reaction_time";
    "reaction_time_variance";
    "task_accuracy";
    "cursor_direction_changes";
    "speed_variance";
    "hesitation_time" ].

(** The [name] fields that [get_feature_importance] writes, in the order
    of its six [append]s. *)
Definition signal_names : list string :=
  [ "avg_reaction_time";
    "reaction_time_variance";
    "task_accuracy";
    "cursor_entropy";
    "speed_variance";
    "hesitation_time" ].

(** The value is a number for Python's [/] and [>]: a boolean, an integer
    or a float. *)
Definition is_number (v : pyval) : bool :=
  match v with
  | PyNone | PyStr _ => false
  | PyBool _ | PyInt _ | PyFloat _ => true
  end.

(** What the code reads under [k] is a number. *)
Definition reads_number (features : dict) (k : string) : bool :=
  is_number (dict_get features k zero).

(** The value is an integer too large to be divided by 1000 into a
    float. *)
Definition int_too_large (v : pyval) : bool :=
  match v with
  | PyInt n => int_overflows n 1000
  | _ => false
  end.

(** What the code reads under [k] is such an integer. *)
Definition too_large (features : dict) (k : string) : bool :=
  int_too_large (dict_get features k zero).

(** The value is a boolean, a float, or an integer that fits in 64 bits
    (signed). *)
Definition value_fits (v : pyval) : bool :=
  match v with
  | PyNone | PyStr _ => false
  | PyBool _ | PyFloat _ => true
  | PyInt n => ((- 2 ^ 63 <=? n) && (n <? 2 ^ 63))%Z
  end.

(** What the code reads under [k] is such a value. *)
Definition reads_fit (features : dict) (k : string) : bool :=
  value_fits (dict_get features k zero).

(** The two objects have the same entry, or both none, under every name
    of [ks]. *)
Definition agree_on (ks : list string) (d1 d2 : dict) : Prop :=
  Forall (fun k => d1 !! k = d2 !! k) ks.

(** The order of the ranking, written out: [a] may stand before [b] when
    the absolute weight of [b] is at most that of [a]. *)
Definition abs_weight_ge (a b : contribution) : Prop :=
  (abs (weight b) <=? abs (weight a))%float = true.

(** The contributions whose absolute weight equals [w], in the order of
    the list. *)
Definition abs_weight_ties (w : float) (l : list contribution) : list contribution :=
  List.filter (fun x => (abs (weight x) =? w)%float) l.

End Reads.

(* ===================================================================== *)
(** ** The artifact: train_model.py writes it, server.py loads it *)
(* ===================================================================== *)

Module Service.
Import Py Server.

(** [FEATURE_NAMES] of train_model.py. *)
Definition FEATURE_NAMES : list string :=
  [ "avg_reaction_time";
    "reaction_time_variance";
    "task_accuracy";
    "hesitation_time";
    "cursor_path_length";
    "cursor_direction_changes";
    "speed_variance" ].

(** The fitted [StandardScaler], seen through [transform] on a row. *)
Definition scaler : Type := list float -> list float.

(** The dict [model_package] that [train_model] pickles. *)
Record model_package : Type := ModelPackage {
  pkg_model : predictor;
  pkg_scaler : scaler;
  pkg_feature_names : list string;
  pkg_model_type : string;
  pkg_accuracy : float;
  pkg_trained_at : string
}.

(** What [pickle.load] returns, as far as server.py can tell objects
    apart: an object that has a [predict_proba] method, or the dict of
    train_model.py. *)
Inductive pyobject : Type :=
| Estimator (predict_proba : predictor)
| PackageDict (pkg : model_package).

(** [model.predict_proba(X)[0][1]] for the loaded object [model].  A dict
    has no attribute [predict_proba]: the lookup raises inside the [try]
    of [verify], like an exception of the call itself. *)
Definition predict_proba_of (model : pyobject) : predictor :=
  match model with
  | Estimator predict_proba => predict_proba
  | PackageDict _ => fun _ => Raise ModelError
  end.

(** The end of [train_model]: the package is built and pickled into
    [model.pkl].  The split, the fit and the evaluation are scikit-learn's;
    their results ([model], [scaler], [accuracy]) and the clock are
    parameters.  [files] gives the pickle files by path, each as the object
    it holds. *)
Definition train_model_save (model : predictor) (scaler0 : scaler)
    (model_type : string) (accuracy : float) (now : string)
    (files : gmap string pyobject) : gmap string pyobject :=
  let model_package :=
    {| pkg_model := model;
       pkg_scaler := scaler0;
       pkg_feature_names := FEATURE_NAMES;
       pkg_model_type := model_type;
       pkg_accuracy := accuracy;
       pkg_trained_at := now |} in
  <["model.pkl" := PackageDict model_package]> files.

Definition MODEL_PATH : string := "model.pkl".

(** [load_model]: the global [model] after the call, from its value
    before. *)
Definition load_model (files : gmap string pyobject) (model : option pyobject)
  : option pyobject :=
  match files !! MODEL_PATH with
  | Some obj => Some obj
  | None => model
  end.

(** The reply of [home]. *)
Record home_reply : Type := HomeReply {
  home_status : string;
  home_service : string;
  home_model_loaded : bool
}.

Definition home (model : option pyobject) : home_reply :=
  {| home_status := "running";
     home_service := "LiveProof ML Backend";
     home_model_loaded := match model with Some _ => true | None => false end |}.

(** The reply of [stats]. *)
Record stats_reply : Type := StatsReply {
  stats_model_loaded : bool;
  stats_feature_count : nat;
  stats_features : list string;
  stats_model_path : string
}.

Definition stats (model : option pyobject) : stats_reply :=
  {| stats_model_loaded := match model with Some _ => true | None => false end;
     stats_feature_count := length feature_names;
     stats_features := feature_names;
     stats_model_path := MODEL_PATH |}.

(** [verify] with the global [model] holding a loaded object. *)
Definition verify_loaded (model : option pyobject) (now : string)
    (req : request) : reply :=
  verify (predict_proba_of <$> model) now req.

End Service.

Import Py Server Model Reads Service.

(* ===================================================================== *)
(** ** The order of binary64 numbers *)
(* ===================================================================== *)

(** The comparisons of primitive floats are specified through
    [SFcompare]; the facts below are the ones the proofs need for
    comparisons between arbitrary numbers. *)
Section FloatOrder.

Lemma SFcompare_swap (a b : spec_float) :
  SFcompare b a = option_map CompOpp (SFcompare a b).
Proof.
  destruct a as [sa|sa| |sa ma ea], b as [sb|sb| |sb mb eb]; simpl;
    try reflexivity;
    try (destruct sa; reflexivity);
    try (destruct sb; reflexivity);
    try (destruct sa, sb; reflexivity).
  assert (Hm : Pos.compare_cont Eq mb ma = CompOpp (Pos.compare_cont Eq ma mb))
    by (rewrite Pos.compare_cont_antisym; reflexivity).
  destruct sa, sb; simpl; try reflexivity;
    rewrite (Z.compare_antisym ea eb), Hm;
    destruct (ea ?= eb)%Z; simpl; try reflexivity;
    destruct (Pos.compare_cont Eq ma mb); reflexivity.
Qed.

Lemma SFcompare_None (a b : spec_float) :
  SFcompare a a <> None -> SFcompare b b <> None -> SFcompare a b <> None.
Proof.
  destruct a as [sa|sa| |sa ma ea], b as [sb|sb| |sb mb eb]; simpl;
    congruence.
Qed.

Lemma SFcompare_Eq_eq (a b k : spec_float) :
  SFcompare a k = Some Eq -> SFcompare b k = Some Eq ->
  SFcompare a b = Some Eq.
Proof.
  assert (Hfin : forall s m e s' m' e',
    SFcompare (S754_finite s m e) (S754_finite s' m' e') = Some Eq ->
    s = s' /\ m = m' /\ e = e').
  { intros s m e s' m' e'; simpl.
    destruct s, s'; try discriminate;
      destruct (e ?= e')%Z eqn:He; try discriminate;
      apply Z.compare_eq in He; intros Hm;
      [ assert (Hm' : Pos.compare_cont Eq m m' = Eq)
          by (destruct (Pos.compare_cont Eq m m'); simpl in Hm; congruence)
      | assert (Hm' : Pos.compare_cont Eq m m' = Eq) by congruence ];
      apply Pos.compare_eq in Hm'; auto. }
  destruct a as [sa|sa| |sa ma ea], k as [sk|sk| |sk mk ek];
    try (simpl; discriminate);
    try (simpl; destruct sa; discriminate);
    try (simpl; destruct sk; discriminate);
    destruct b as [sb|sb| |sb mb eb];
    try (simpl; discriminate);
    try (simpl; destruct sb; discriminate);
    try (simpl; destruct sk; discriminate);
    try (simpl; reflexivity).
  - simpl. destruct sa, sk, sb; simpl; congruence.
  - intros Ha Hb. apply Hfin in Ha as (-> & -> & ->).
    apply Hfin in Hb as (-> & -> & ->).
    simpl. rewrite Z.compare_refl, Pos.compare_cont_refl.
    destruct sk; reflexivity.
Qed.


Lemma float_ltb_leb (x y : float) :
  (x <? y)%float = true -> (x <=? y)%float = true.
Proof.
  rewrite leb_spec, ltb_spec. unfold SFleb, SFltb.
  destruct (SFcompare (Prim2SF x) (Prim2SF y)) as [[]|]; simpl; congruence.
Qed.

(** [x <=? x] holds exactly for the numbers, i.e. for every float but
    NaN; two numbers are always comparable. *)
Lemma float_not_ltb_leb (x y : float) :
  (x <=? x)%float = true -> (y <=? y)%float = true ->
  (x <? y)%float = false -> (y <=? x)%float = true.
Proof.
  rewrite !leb_spec, ltb_spec. unfold SFleb, SFltb.
  intros Hx Hy.
  assert (Hc : SFcompare (Prim2SF x) (Prim2SF y) <> None).
  { apply SFcompare_None.
    - destruct (SFcompare (Prim2SF x) (Prim2SF x)); congruence.
    - destruct (SFcompare (Prim2SF y) (Prim2SF y)); congruence. }
  rewrite (SFcompare_swap (Prim2SF x) (Prim2SF y)).
  destruct (SFcompare (Prim2SF x) (Prim2SF y)) as [[]|]; simpl; congruence.
Qed.

Lemma float_eqb_not_ltb (x y k : float) :
  (x =? k)%float = true -> (y =? k)%float = true -> (x <? y)%float = false.
Proof.
  rewrite !FloatAxioms.eqb_spec, ltb_spec. unfold SFeqb, SFltb.
  intros Hx Hy.
  rewrite (SFcompare_Eq_eq (Prim2SF x) (Prim2SF y) (Prim2SF k)).
  - reflexivity.
  - destruct (SFcompare (Prim2SF x) (Prim2SF k)) as [[]|]; congruence.
  - destruct (SFcompare (Prim2SF y) (Prim2SF k)) as [[]|]; congruence.
Qed.

End FloatOrder.

(* ===================================================================== *)
(** ** [sort(key=..., reverse=True)]: permutation, order, stability *)
(* ===================================================================== *)

Section SortDesc.
Context {A : Type} (key : A -> float).

Lemma insert_desc_Permutation (x : A) (l : list A) :
  Permutation (insert_desc key x l) (x :: l).
Proof.
  induction l as [|y l IH]; simpl.
  - reflexivity.
  - destruct (key x <? key y)%float.
    + rewrite IH. apply perm_swap.
    + reflexivity.
Qed.

Lemma sort_desc_Permutation (l : list A) :
  Permutation (sort_desc key l) l.
Proof.
  induction l as [|x l IH]; simpl.
  - reflexivity.
  - rewrite insert_desc_Permutation. now apply perm_skip.
Qed.

Lemma insert_desc_HdRel (a x : A) (l : list A) :
  key_ge key a x -> HdRel (key_ge key) a l ->
  HdRel (key_ge key) a (insert_desc key x l).
Proof.
  intros Hax Hal. destruct l as [|y l]; simpl.
  - now constructor.
  - destruct (key x <? key y)%float; constructor.
    + now inversion Hal.
    + exact Hax.
Qed.

Lemma insert_desc_Sorted (x : A) (l : list A) :
  key_number key x -> Forall (key_number key) l ->
  Sorted (key_ge key) l -> Sorted (key_ge key) (insert_desc key x l).
Proof.
  intros Hx Hl Hs. induction Hs as [|y l Hs IH Hhd]; simpl.
  - repeat constructor.
  - inversion Hl as [|? ? Hy Hl']; subst.
    destruct (key x <? key y)%float eqn:Hlt.
    + constructor.
      * now apply IH.
      * apply insert_desc_HdRel; [|exact Hhd].
        now apply float_ltb_leb.
    + constructor.
      * now constructor.
      * constructor. now apply float_not_ltb_leb.
Qed.

Lemma sort_desc_Sorted (l : list A) :
  Forall (key_number key) l -> Sorted (key_ge key) (sort_desc key l).
Proof.
  induction 1 as [|x l Hx Hl IH]; simpl.
  - constructor.
  - apply insert_desc_Sorted; [exact Hx| |exact IH].
    now rewrite sort_desc_Permutation.
Qed.

Lemma insert_desc_ties (k : float) (x : A) (l : list A) :
  ties key k (insert_desc key x l) = ties key k (x :: l).
Proof.
  induction l as [|y l IH]; simpl.
  - reflexivity.
  - destruct (key x <? key y)%float eqn:Hlt; [|reflexivity].
    unfold ties in *. simpl in *. rewrite IH.
    destruct (key x =? k)%float eqn:Hx, (key y =? k)%float eqn:Hy;
      try reflexivity.
    rewrite (float_eqb_not_ltb _ _ _ Hx Hy) in Hlt. discriminate.
Qed.

(** Stability: elements with tied keys keep the order of the input. *)
Lemma sort_desc_ties (k : float) (l : list A) :
  ties key k (sort_desc key l) = ties key k l.
Proof.
  induction l as [|x l IH]; simpl.
  - reflexivity.
  - rewrite insert_desc_ties. unfold ties in *. simpl. now rewrite IH.
Qed.

End SortDesc.

(** Case analysis on the condition of a conditional of the goal. *)
Ltac case_if :=
  match goal with
  | |- context [if ?b then _ else _] =>
      lazymatch b with
      | true => fail
      | false => fail
      | _ => destruct b
      end
  end.

(* ===================================================================== *)
(** ** Python's operations on the values of the model *)
(* ===================================================================== *)

Arguments float_of_Z : simpl never.
Arguments int_truediv : simpl never.
Arguments int_overflows : simpl never.
Arguments Z_gt_float : simpl never.
Arguments Np.Z_of_float : simpl never.

Lemma float_of_Z_1000 : float_of_Z 1000 = 1000%float.
Proof. reflexivity. Qed.

Lemma float_of_Z_1000000 : float_of_Z 1000000 = 1000000%float.
Proof. reflexivity. Qed.

(** An integer that fits in 64 bits is divided by 1000 without
    overflow. *)
Lemma int_overflows_fit (n : Z) :
  (- 2 ^ 63 <= n < 2 ^ 63)%Z -> int_overflows n 1000 = false.
Proof.
  intros Hn. unfold int_overflows. apply Z.leb_gt.
  assert (Hc : (2 ^ 63 < (2 ^ 1024 - 2 ^ 970) * Z.abs 1000)%Z)
    by (apply Z.ltb_lt; vm_compute; reflexivity).
  set (c := ((2 ^ 1024 - 2 ^ 970) * Z.abs 1000)%Z) in *.
  clearbody c. lia.
Qed.

Lemma truediv_1000_spec (v : pyval) :
  (is_number v = true /\ int_too_large v = false /\
   exists q, truediv v 1000 = Ok q) \/
  (is_number v = false /\ int_too_large v = false /\
   truediv v 1000 = Raise TypeError) \/
  (is_number v = true /\ int_too_large v = true /\
   truediv v 1000 = Raise OverflowError).
Proof.
  destruct v as [|b|n|x|s]; simpl.
  - right. left. auto.
  - left. split; [reflexivity|]. split; [reflexivity|].
    destruct b; eexists; reflexivity.
  - unfold int_truediv. destruct (int_overflows n 1000).
    + right. right. auto.
    + left. split; [reflexivity|]. split; [reflexivity|].
      eexists; reflexivity.
  - left. split; [reflexivity|]. split; [reflexivity|].
    eexists; reflexivity.
  - right. left. auto.
Qed.

Lemma gt_spec (v : pyval) (c : float) :
  (is_number v = true /\ exists b, gt v c = Ok b) \/
  (is_number v = false /\ gt v c = Raise TypeError).
Proof.
  destruct v as [|b|n|x|s]; simpl; eauto.
Qed.

(** Case analysis on the outcome of the next [/ 1000] or [>] of the goal,
    with the facts about the value it was applied to. *)
Ltac step_truediv v :=
  let Hn := fresh "Hnum" in
  let Hl := fresh "Hlarge" in
  let q := fresh "q" in
  let E := fresh "E" in
  destruct (truediv_1000_spec v)
    as [(Hn & Hl & q & E) | [(Hn & Hl & E) | (Hn & Hl & E)]];
  rewrite E; simpl; rewrite ?Hn, ?Hl; simpl.

Ltac step_gt v c :=
  let Hn := fresh "Hnum" in
  let b := fresh "b" in
  let E := fresh "E" in
  destruct (gt_spec v c) as [(Hn & b & E) | (Hn & E)];
  rewrite E; simpl; rewrite ?Hn; simpl.

(* ===================================================================== *)
(** ** The rule-based scorer and the Ranker on any [features] object *)
(* ===================================================================== *)

(** The outcome of the scorer, by what it reads under its five names. *)
Lemma fallback_scoring_spec (features : dict) :
  match fallback_scoring features with
  | Ok s =>
      forallb (reads_number features) scoring_names = true /\
      too_large features "avg_reaction_time" = false /\
      (exists score, fallback_score features = Ok score /\
                     s = Py.min 0.95 score /\
                     (0.25 <=? score)%float = true) /\
      (0.2 <=? s)%float = true /\
      (s <=? 0.95)%float = true
  | Raise e =>
      (e = OverflowError /\ too_large features "avg_reaction_time" = true) \/
      (e = TypeError /\ too_large features "avg_reaction_time" = false /\
       forallb (reads_number features) scoring_names = false)
  end.
Proof.
  unfold fallback_scoring, fallback_score, scoring_names, reads_number,
    too_large.
  simpl forallb.
  generalize (dict_get features "avg_reaction_time" zero)
             (dict_get features "reaction_time_variance" zero)
             (dict_get features "task_accuracy" zero)
             (dict_get features "cursor_direction_changes" zero)
             (dict_get features "speed_variance" zero).
  intros v1 v2 v3 v4 v5.
  step_truediv v1; [|right; auto|left; auto].
  step_gt v2 100000%float; [|right; auto].
  step_gt v3 0.6%float; [|right; auto].
  step_gt v4 5%float; [|right; auto].
  step_gt v5 0.01%float; [|right; auto].
  split; [reflexivity|]. split; [reflexivity|].
  destruct (q <? 2)%float, (5 <? q)%float, b, b0, b1, b2;
    (split; [eexists; split; [reflexivity|]; vm_compute; auto|]);
    vm_compute; auto.
Qed.

(** The outcome of the Ranker before its sort, by what it reads under its
    six names. *)
Lemma feature_contributions_spec (features : dict) :
  match feature_contributions features with
  | Ok enc =>
      forallb (reads_number features) ranking_names = true /\
      too_large features "avg_reaction_time" = false /\
      too_large features "hesitation_time" = false /\
      length enc = 6 /\
      map name enc = signal_names /\
      Forall (key_number abs_weight) enc /\
      Forall (fun c => positive c = (0 <=? weight c)%float) enc /\
      exists b : bool,
        gt (dict_get features "cursor_direction_changes" zero) 5 = Ok b /\
        In (Contribution "cursor_entropy"
              (if b then 0.12 else 0.05)%float true) enc
  | Raise e =>
      (e = OverflowError /\
       (too_large features "avg_reaction_time" = true \/
        too_large features "hesitation_time" = true)) \/
      (e = TypeError /\
       forallb (reads_number features) ranking_names = false)
  end.
Proof.
  unfold feature_contributions, ranking_names, reads_number, too_large.
  simpl forallb.
  generalize (dict_get features "avg_reaction_time" zero)
             (dict_get features "reaction_time_variance" zero)
             (dict_get features "task_accuracy" zero)
             (dict_get features "cursor_direction_changes" zero)
             (dict_get features "speed_variance" zero)
             (dict_get features "hesitation_time" zero).
  intros v1 v2 v3 v4 v5 v6.
  step_truediv v1; [|right; auto|left; auto].
  step_gt v2 100000%float; [|right; auto].
  step_gt v3 0.6%float; [|right; auto].
  step_gt v4 5%float; [|right; auto].
  step_gt v5 0.01%float; [|right; auto].
  step_truediv v6; [|right; auto|left; auto].
  split; [reflexivity|]. split; [reflexivity|]. split; [reflexivity|].
  split; [reflexivity|].
  split; [repeat case_if; reflexivity|].
  split; [repeat first [apply List.Forall_cons | apply List.Forall_nil];
          repeat case_if; reflexivity|].
  split; [repeat first [apply List.Forall_cons | apply List.Forall_nil];
          repeat case_if; reflexivity|].
  exists b1. split; [reflexivity|].
  do 3 right. left. destruct b1; reflexivity.
Qed.

(** The Ranker sorts what it has computed. *)
Lemma get_feature_importance_sorts (features : dict) (c : float)
    (enc : list contribution) :
  feature_contributions features = Ok enc ->
  get_feature_importance features c = Ok (sort_desc abs_weight enc).
Proof. intros H. unfold get_feature_importance. now rewrite H. Qed.

Lemma get_feature_importance_raises (features : dict) (c : float) (e : exn) :
  feature_contributions features = Raise e ->
  get_feature_importance features c = Raise e.
Proof. intros H. unfold get_feature_importance. now rewrite H. Qed.

(** What the Ranker returns has six entries. *)
Lemma get_feature_importance_length (features : dict) (c : float)
    (ranking : list contribution) :
  get_feature_importance features c = Ok ranking -> length ranking = 6.
Proof.
  pose proof (feature_contributions_spec features) as H.
  destruct (feature_contributions features) as [enc|e] eqn:E.
  - rewrite (get_feature_importance_sorts _ c _ E).
    intros Heq. assert (ranking = sort_desc abs_weight enc) by congruence.
    subst ranking.
    rewrite (Permutation_length (sort_desc_Permutation _ _)). tauto.
  - rewrite (get_feature_importance_raises _ c _ E). discriminate.
Qed.

(** What the scorer returns lies in [0.2, 0.95]. *)
Lemma fallback_scoring_bounds (features : dict) (s : float) :
  fallback_scoring features = Ok s ->
  (0.2 <=? s)%float = true /\ (s <=? 0.95)%float = true.
Proof.
  pose proof (fallback_scoring_spec features) as H.
  destruct (fallback_scoring features) as [s'|e]; [|discriminate].
  intros Heq. assert (s' = s) by congruence. subst. tauto.
Qed.

(* ===================================================================== *)
(** ** The Normalizer on numeric rows of seven cells *)
(* ===================================================================== *)

(** On a seven-cell [float64] row, in closed form. *)
Lemma normalize_features_row (x0 x1 x2 x3 x4 x5 x6 : float) :
  normalize_features (Np.Float64 [x0; x1; x2; x3; x4; x5; x6]) =
  Ok (Np.Float64
        [ if (100 <? x0)%float then (x0 / 1000)%float else x0;
          if (100000 <? x1)%float then (x1 / 1000000)%float else x1;
          x2;
          if (100 <? x0)%float then (x3 / 1000)%float else x3;
          if (1000 <? x4)%float then (x4 / 1000)%float else x4;
          x5;
          x6 ]).
Proof.
  unfold normalize_features. simpl.
  rewrite ?float_of_Z_1000, ?float_of_Z_1000000.
  destruct (100 <? x0)%float; simpl;
    rewrite ?float_of_Z_1000, ?float_of_Z_1000000;
    destruct (100000 <? x1)%float; simpl;
    rewrite ?float_of_Z_1000, ?float_of_Z_1000000;
    destruct (1000 <? x4)%float; simpl;
    rewrite ?float_of_Z_1000, ?float_of_Z_1000000; reflexivity.
Qed.

(** On a seven-cell [int64] row, in closed form: each quotient is stored
    with its fraction cut off. *)
Lemma normalize_features_int64_row (n0 n1 n2 n3 n4 n5 n6 : Z) :
  normalize_features (Np.Int64 [n0; n1; n2; n3; n4; n5; n6]) =
  Ok (Np.Int64
        [ if Z_gt_float n0 100
          then Np.Z_of_float (float_of_Z n0 / 1000) else n0;
          if Z_gt_float n1 100000
          then Np.Z_of_float (float_of_Z n1 / 1000000) else n1;
          n2;
          if Z_gt_float n0 100
          then Np.Z_of_float (float_of_Z n3 / 1000) else n3;
          if Z_gt_float n4 1000
          then Np.Z_of_float (float_of_Z n4 / 1000) else n4;
          n5;
          n6 ]).
Proof.
  unfold normalize_features. simpl.
  rewrite ?float_of_Z_1000, ?float_of_Z_1000000.
  destruct (Z_gt_float n0 100); simpl;
    rewrite ?float_of_Z_1000, ?float_of_Z_1000000;
    destruct (Z_gt_float n1 100000); simpl;
    rewrite ?float_of_Z_1000, ?float_of_Z_1000000;
    destruct (Z_gt_float n4 1000); simpl;
    rewrite ?float_of_Z_1000, ?float_of_Z_1000000; reflexivity.
Qed.

(* ===================================================================== *)
(** ** The pipeline on a Feature Mapping of numbers *)
(* ===================================================================== *)

Lemma dtype_of_number (x : number) :
  fits64 x = true ->
  Np.dtype_of_value (of_number x) =
  match x with
  | NInt _ => Np.DInt64
  | NFloat _ => Np.DFloat64
  end.
Proof.
  destruct x as [n|x]; [|reflexivity].
  unfold fits64, of_number, Np.dtype_of_value. now intros ->.
Qed.

Lemma is_number_of_number (x : number) : is_number (of_number x) = true.
Proof. now destruct x. Qed.

Lemma int_too_large_of_number (x : number) :
  fits64 x = true -> int_too_large (of_number x) = false.
Proof.
  destruct x as [n|x]; [|reflexivity].
  unfold fits64, of_number, int_too_large. intros H.
  apply andb_true_iff in H as [H1 H2].
  apply Z.leb_le in H1. apply Z.ltb_lt in H2.
  apply int_overflows_fit. lia.
Qed.

Section Numbers.
Variable nm : gmap string number.

Lemma dict_get_num_dict (k : string) :
  dict_get (num_dict nm) k zero = of_number (number_at nm k).
Proof.
  unfold dict_get, num_dict, number_at. rewrite lookup_fmap.
  destruct (nm !! k); reflexivity.
Qed.

Lemma reads_number_num_dict (ks : list string) :
  forallb (reads_number (num_dict nm)) ks = true.
Proof.
  apply forallb_forall. intros k _. unfold reads_number.
  rewrite dict_get_num_dict. apply is_number_of_number.
Qed.

Lemma too_large_num_dict (k : string) :
  fits64 (number_at nm k) = true -> too_large (num_dict nm) k = false.
Proof.
  intros H. unfold too_large. rewrite dict_get_num_dict.
  now apply int_too_large_of_number.
Qed.

Lemma numbers_fit_at (k : string) :
  numbers_fit nm = true -> In k feature_names ->
  fits64 (number_at nm k) = true.
Proof.
  unfold numbers_fit. rewrite forallb_forall. intros H Hk. now apply H.
Qed.

(** The vector of numbers that fit is an [int64] or a [float64] array of
    seven cells, and the Normalizer returns on it. *)
Lemma normalize_features_numbers :
  numbers_fit nm = true ->
  exists X : Np.ndarray,
    normalize_features (extract_feature_vector (num_dict nm)) = Ok X /\
    Np.ncols X = 7.
Proof.
  intros Hfit.
  assert (H0 := numbers_fit_at "avg_reaction_time" Hfit).
  assert (H1 := numbers_fit_at "reaction_time_variance" Hfit).
  assert (H2 := numbers_fit_at "task_accuracy" Hfit).
  assert (H3 := numbers_fit_at "hesitation_time" Hfit).
  assert (H4 := numbers_fit_at "cursor_path_length" Hfit).
  assert (H5 := numbers_fit_at "cursor_direction_changes" Hfit).
  assert (H6 := numbers_fit_at "speed_variance" Hfit).
  unfold extract_feature_vector, Np.array, Np.common_dtype.
  rewrite !dict_get_num_dict. cbn [foldl].
  rewrite !dtype_of_number by (first [apply H0|apply H1|apply H2|apply H3
                                     |apply H4|apply H5|apply H6];
                               simpl; tauto).
  clear.
  destruct (number_at nm "avg_reaction_time"),
    (number_at nm "reaction_time_variance"),
    (number_at nm "task_accuracy"),
    (number_at nm "hesitation_time"),
    (number_at nm "cursor_path_length"),
    (number_at nm "cursor_direction_changes"),
    (number_at nm "speed_variance");
    cbn [Np.promote map of_number Np.to_Z Np.to_float];
    first [rewrite normalize_features_int64_row
          |rewrite normalize_features_row];
    eexists; split; reflexivity.
Qed.

End Numbers.

(* ===================================================================== *)
(** ** The orchestrator *)
(* ===================================================================== *)

(** [verify] when each step returns. *)
Lemma verify_ok (d : dict) (model : option predictor) (now : string)
    (sid : option string) (X : Np.ndarray) (score : float)
    (ranking : list contribution) :
  normalize_features (extract_feature_vector d) = Ok X ->
  fallback_scoring d = Ok score ->
  (forall c, get_feature_importance d c = Ok ranking) ->
  verify model now (request_of sid d) =
  Reply200 {| sessionId := sid;
              confidence := match model with
                            | Some m => match m X with
                                        | Ok c => c
                                        | Raise _ => score
                                        end
                            | None => score
                            end;
              featureImportance := ranking;
              features := d;
              timestamp := now;
              modelUsed := match model with
                           | Some _ => "ML"
                           | None => "Rule-based"
                           end |}.
Proof.
  intros HX Hs Hr. unfold verify, request_of, verify_try. simpl.
  rewrite HX. simpl.
  destruct model as [m|]; simpl.
  - destruct (m X) as [c|e]; simpl.
    + now rewrite Hr.
    + rewrite Hs. simpl. now rewrite Hr.
  - rewrite Hs. simpl. now rewrite Hr.
Qed.

(** What a Verification Result was made of. *)
Lemma verify_reply200_inv (model : option predictor) (now : string)
    (req : request) (r : response) :
  verify model now req = Reply200 r ->
  exists (data : request_body) (X : Np.ndarray),
    req = JsonObject data /\
    features_of data = FeaturesObject (features r) /\
    normalize_features (extract_feature_vector (features r)) = Ok X /\
    get_feature_importance (features r) (confidence r) =
      Ok (featureImportance r) /\
    sessionId r = body_sessionId data /\
    timestamp r = now /\
    modelUsed r = match model with Some _ => "ML" | None => "Rule-based" end /\
    match model with
    | Some m =>
        m X = Ok (confidence r) \/
        (exists e, m X = Raise e) /\
        fallback_scoring (features r) = Ok (confidence r)
    | None => fallback_scoring (features r) = Ok (confidence r)
    end.
Proof.
  destruct req as [data| |]; [|discriminate|discriminate].
  unfold verify, verify_try.
  destruct (features_of data) as [d|] eqn:Hd; [|discriminate].
  destruct (normalize_features (extract_feature_vector d)) as [X|e] eqn:HX;
    simpl; [|discriminate].
  destruct model as [m|]; simpl.
  - destruct (m X) as [c|e] eqn:Hm; simpl.
    + destruct (get_feature_importance d c) as [rk|e] eqn:Hr; simpl;
        [|discriminate].
      intros H.
      assert (Hr' : r = {| sessionId := body_sessionId data; confidence := c;
                           featureImportance := rk; features := d;
                           timestamp := now; modelUsed := "ML" |})
        by congruence.
      subst r. simpl. exists data, X. auto 10.
    + destruct (fallback_scoring d) as [s|e'] eqn:Hs; simpl; [|discriminate].
      destruct (get_feature_importance d s) as [rk|e'] eqn:Hr; simpl;
        [|discriminate].
      intros H.
      assert (Hr' : r = {| sessionId := body_sessionId data; confidence := s;
                           featureImportance := rk; features := d;
                           timestamp := now; modelUsed := "ML" |})
        by congruence.
      subst r. simpl. exists data, X. eauto 12.
  - destruct (fallback_scoring d) as [s|e'] eqn:Hs; simpl; [|discriminate].
    destruct (get_feature_importance d s) as [rk|e'] eqn:Hr; simpl;
      [|discriminate].
    intros H.
    assert (Hr' : r = {| sessionId := body_sessionId data; confidence := s;
                         featureImportance := rk; features := d;
                         timestamp := now; modelUsed := "Rule-based" |})
      by congruence.
    subst r. simpl. exists data, X. auto 10.
Qed.

(** On a Feature Mapping of numbers that fit every step of [verify]
    returns: the reply is a Verification Result, whose confidence is the
    artifact's probability when its call returns and the rule-based score
    otherwise. *)
Lemma verify_numbers (nm : gmap string number) (model : option predictor)
    (now : string) (sid : option string) :
  numbers_fit nm = true ->
  exists (X : Np.ndarray) (score : float) (ranking : list contribution),
    normalize_features (extract_feature_vector (num_dict nm)) = Ok X /\
    Np.ncols X = 7 /\
    fallback_scoring (num_dict nm) = Ok score /\
    (forall c, get_feature_importance (num_dict nm) c = Ok ranking) /\
    verify model now (request_of sid (num_dict nm)) =
    Reply200 {| sessionId := sid;
                confidence := match model with
                              | Some m => match m X with
                                          | Ok c => c
                                          | Raise _ => score
                                          end
                              | None => score
                              end;
                featureImportance := ranking;
                features := num_dict nm;
                timestamp := now;
                modelUsed := match model with
                             | Some _ => "ML"
                             | None => "Rule-based"
                             end |}.
Proof.
  intros Hfit.
  destruct (normalize_features_numbers nm Hfit) as (X & HX & Hcols).
  assert (Havg : too_large (num_dict nm) "avg_reaction_time" = false)
    by (apply too_large_num_dict, numbers_fit_at; [exact Hfit|simpl; tauto]).
  assert (Hhes : too_large (num_dict nm) "hesitation_time" = false)
    by (apply too_large_num_dict, numbers_fit_at; [exact Hfit|simpl; tauto]).
  pose proof (fallback_scoring_spec (num_dict nm)) as Hs.
  destruct (fallback_scoring (num_dict nm)) as [score|e] eqn:Escore.
  2:{ destruct Hs as [[_ Hs]|(_ & _ & Hs)].
      - congruence.
      - rewrite reads_number_num_dict in Hs. discriminate. }
  pose proof (feature_contributions_spec (num_dict nm)) as Hc.
  destruct (feature_contributions (num_dict nm)) as [enc|e] eqn:Eenc.
  2:{ destruct Hc as [[_ [Hc|Hc]]|[_ Hc]].
      - congruence.
      - congruence.
      - rewrite reads_number_num_dict in Hc. discriminate. }
  exists X, score, (sort_desc abs_weight enc).
  assert (Hrank : forall c, get_feature_importance (num_dict nm) c =
                            Ok (sort_desc abs_weight enc))
    by (intros c; now apply get_feature_importance_sorts).
  split; [exact HX|]. split; [exact Hcols|]. split; [reflexivity|].
  split; [exact Hrank|].
  now apply verify_ok.
Qed.

(** A Feature Mapping of floats is a Feature Mapping of numbers that
    fit. *)
Lemma to_dict_num_dict (fm : gmap string float) :
  to_dict fm = num_dict (NFloat <$> fm).
Proof.
  unfold to_dict, num_dict. rewrite <- map_fmap_compose. reflexivity.
Qed.

Lemma numbers_fit_floats (fm : gmap string float) :
  numbers_fit (NFloat <$> fm) = true.
Proof.
  unfold numbers_fit. apply forallb_forall. intros k _.
  unfold number_at. rewrite lookup_fmap. now destruct (fm !! k).
Qed.

(** On a Feature Mapping of floats every step of [verify] returns. *)
Lemma verify_to_dict (fm : gmap string float) (model : option predictor)
    (now : string) (sid : option string) :
  exists (X : Np.ndarray) (score : float) (ranking : list contribution),
    normalize_features (extract_feature_vector (to_dict fm)) = Ok X /\
    fallback_scoring (to_dict fm) = Ok score /\
    (forall c, get_feature_importance (to_dict fm) c = Ok ranking) /\
    verify model now (body_of sid fm) =
    Reply200 {| sessionId := sid;
                confidence := match model with
                              | Some m => match m X with
                                          | Ok c => c
                                          | Raise _ => score
                                          end
                              | None => score
                              end;
                featureImportance := ranking;
                features := to_dict fm;
                timestamp := now;
                modelUsed := match model with
                             | Some _ => "ML"
                             | None => "Rule-based"
                             end |}.
Proof.
  unfold body_of. rewrite to_dict_num_dict.
  destruct (verify_numbers (NFloat <$> fm) model now sid
              (numbers_fit_floats fm))
    as (X & score & ranking & HX & _ & Hs & Hr & Hv).
  exists X, score, ranking. auto.
Qed.

(* ===================================================================== *)
(** ** The pipeline on a Feature Mapping of floats *)
(* ===================================================================== *)

Section NumericMapping.
Variable fm : gmap string float.

Lemma truediv_to_dict (k : string) :
  truediv (dict_get (to_dict fm) k zero) 1000 =
  Ok (feature fm k / 1000)%float.
Proof.
  unfold dict_get, to_dict, feature. rewrite lookup_fmap.
  destruct (fm !! k); simpl.
  - now rewrite float_of_Z_1000.
  - reflexivity.
Qed.

(** For a constant [c] that the integer 0 and the float 0 compare with
    alike, as the four constants of the source do. *)
Lemma gt_to_dict (k : string) (c : float) :
  Z_gt_float 0 c = (c <? 0)%float ->
  gt (dict_get (to_dict fm) k zero) c = Ok (c <? feature fm k)%float.
Proof.
  intros Hc. unfold dict_get, to_dict, feature. rewrite lookup_fmap.
  destruct (fm !! k); simpl; [reflexivity|]. now rewrite Hc.
Qed.


Lemma fallback_scoring_to_dict :
  exists score : float,
    fallback_score (to_dict fm) = Ok score /\
    fallback_scoring (to_dict fm) = Ok (clamp score) /\
    (0.2 <=? clamp score)%float = true /\
    (clamp score <=? 0.95)%float = true.
Proof.
  unfold fallback_scoring, fallback_score.
  rewrite truediv_to_dict, !gt_to_dict by reflexivity. simpl.
  set (rt := (feature fm "avg_reaction_time" / 1000)%float).
  destruct (rt <? 2)%float, (5 <? rt)%float,
    (100000 <? feature fm "reaction_time_variance")%float,
    (0.6 <? feature fm "task_accuracy")%float,
    (5 <? feature fm "cursor_direction_changes")%float,
    (0.01 <? feature fm "speed_variance")%float;
    eexists; (split; [reflexivity|]); vm_compute; auto.
Qed.

(** The six entries, before the sort. *)
Lemma feature_contributions_to_dict :
  exists enc : list contribution,
    feature_contributions (to_dict fm) = Ok enc /\
    length enc = 6 /\
    Forall (key_number abs_weight) enc /\
    Forall (fun c => positive c = (0 <=? weight c)%float) enc /\
    In (Contribution "cursor_entropy"
          (if (5 <? feature fm "cursor_direction_changes")%float
           then 0.12 else 0.05)%float true) enc.
Proof.
  unfold feature_contributions.
  rewrite !truediv_to_dict, !gt_to_dict by reflexivity. simpl.
  eexists. split; [reflexivity|].
  split; [reflexivity|].
  set (rt := (feature fm "avg_reaction_time" / 1000)%float).
  set (hesitation := (feature fm "hesitation_time" / 1000)%float).
  repeat split.
  - repeat first [apply List.Forall_cons | apply List.Forall_nil];
      repeat case_if; reflexivity.
  - repeat first [apply List.Forall_cons | apply List.Forall_nil];
      repeat case_if; reflexivity.
  - do 3 right. left.
    destruct (5 <? feature fm "cursor_direction_changes")%float; reflexivity.
Qed.

End NumericMapping.

(* ===================================================================== *)
(** ** The vector of numbers, and a text among them *)
(* ===================================================================== *)



Section NumbersVector.
Variable nm : gmap string number.
Hypothesis Hfit : numbers_fit nm = true.




End NumbersVector.


(** The array has as many columns as cells were given. *)
Lemma ncols_array (cells : list pyval) :
  Np.ncols (Np.array cells) = length cells.
Proof.
  unfold Np.array. destruct (Np.common_dtype cells); simpl;
    rewrite ?length_map; reflexivity.
Qed.

(* ===================================================================== *)
(** ** What the functions read *)
(* ===================================================================== *)

(** Splits an agreement on a list of names into its equations. *)
Ltac agree_split H :=
  unfold agree_on in H; simpl in H;
  repeat match type of H with
         | Forall _ (_ :: _) =>
             let Hk := fresh "Hk" in
             apply Forall_cons in H as [Hk H]
         end.

(** Replaces the lookups of one object by those of the other. *)
Ltac agree_rewrite :=
  unfold dict_get;
  repeat match goal with
         | Hk : ?d !! ?k = _ |- context [?d !! ?k] => rewrite Hk; clear Hk
         end.

Lemma agree_on_incl (ks ks' : list string) (d1 d2 : dict) :
  incl ks' ks -> agree_on ks d1 d2 -> agree_on ks' d1 d2.
Proof.
  unfold agree_on. rewrite !List.Forall_forall. intros Hin H k Hk.
  apply H, Hin, Hk.
Qed.

Lemma extract_feature_vector_agree (d1 d2 : dict) :
  agree_on feature_names d1 d2 ->
  extract_feature_vector d1 = extract_feature_vector d2.
Proof.
  intros H. unfold feature_names in H. agree_split H.
  unfold extract_feature_vector. agree_rewrite. reflexivity.
Qed.

Lemma fallback_scoring_agree (d1 d2 : dict) :
  agree_on scoring_names d1 d2 ->
  fallback_scoring d1 = fallback_scoring d2.
Proof.
  intros H. unfold scoring_names in H. agree_split H.
  unfold fallback_scoring, fallback_score. agree_rewrite. reflexivity.
Qed.

Lemma get_feature_importance_agree (d1 d2 : dict) (c1 c2 : float) :
  agree_on ranking_names d1 d2 ->
  get_feature_importance d1 c1 = get_feature_importance d2 c2.
Proof.
  intros H. unfold ranking_names in H. agree_split H.
  unfold get_feature_importance, feature_contributions. agree_rewrite.
  reflexivity.
Qed.

Lemma scoring_names_incl : incl scoring_names feature_names.
Proof. intros k Hk. simpl in *. tauto. Qed.

Lemma ranking_names_incl : incl ranking_names feature_names.
Proof. intros k Hk. simpl in *. tauto. Qed.

(* ===================================================================== *)
(** ** Numeric arrays, and the values that make them *)
(* ===================================================================== *)

Lemma gt_numeric (X : Np.ndarray) (j : nat) (c : float) :
  Np.numeric X = true -> j < Np.ncols X ->
  exists b : bool, Np.gt X j c = Ok b.
Proof.
  intros Hnum Hj.
  destruct X as [row|row|row|row|row|row]; try discriminate; simpl in *;
    destruct (lookup_lt_is_Some_2 row j Hj) as [v ->]; eauto.
Qed.

Lemma idiv_numeric (X : Np.ndarray) (j : nat) (d : Z) :
  Np.numeric X = true -> j < Np.ncols X ->
  exists X' : Np.ndarray,
    Np.idiv X j d = Ok X' /\
    Np.numeric X' = true /\
    Np.ncols X' = Np.ncols X.
Proof.
  intros Hnum Hj.
  destruct X as [row|row|row|row|row|row]; try discriminate; simpl in *;
    destruct (lookup_lt_is_Some_2 row j Hj) as [v ->];
    (eexists; split; [reflexivity|]; simpl; split;
     [reflexivity|apply length_insert]).
Qed.

(** A comparison or a division of the goal on a numeric array, in
    range. *)
Ltac step_np_gt :=
  match goal with
  | Hnum : Np.numeric ?X = true |- context [Np.gt ?X ?j ?c] =>
      let b := fresh "b" in
      let E := fresh "E" in
      destruct (gt_numeric X j c Hnum) as [b E];
      [lia | rewrite E; simpl; destruct b; simpl]
  end.

Ltac step_np_idiv :=
  match goal with
  | Hnum : Np.numeric ?X = true |- context [Np.idiv ?X ?j ?d] =>
      let X' := fresh "X" in
      let E := fresh "E" in
      let Hnum' := fresh "Hnum" in
      let Hcols := fresh "Hcols" in
      destruct (idiv_numeric X j d Hnum) as (X' & E & Hnum' & Hcols);
      [lia | rewrite E; simpl]
  end.

(** On a numeric array with the five columns it reads, the Normalizer
    returns a numeric array of the same width. *)
Lemma normalize_features_numeric (X : Np.ndarray) :
  Np.numeric X = true -> 5 <= Np.ncols X ->
  exists X' : Np.ndarray,
    normalize_features X = Ok X' /\
    Np.numeric X' = true /\
    Np.ncols X' = Np.ncols X.
Proof.
  intros Hnum Hn. unfold normalize_features.
  repeat first [step_np_gt | step_np_idiv];
    (eexists; split; [reflexivity|]; split; [assumption|lia]).
Qed.

Lemma promote_small (a b : Np.dtype) :
  Np.small a = true -> Np.small b = true ->
  Np.small (Np.promote a b) = true.
Proof. now destruct a, b. Qed.

Lemma dtype_of_value_fits (v : pyval) :
  value_fits v = true -> Np.small (Np.dtype_of_value v) = true.
Proof.
  destruct v as [|b|n|x|s]; simpl; try discriminate; try reflexivity.
  now intros ->.
Qed.

Lemma common_dtype_small (cells : list pyval) :
  Forall (fun v => value_fits v = true) cells ->
  Np.small (Np.common_dtype cells) = true.
Proof.
  destruct 1 as [|v cells Hv Hcells]; [reflexivity|]. simpl.
  generalize (dtype_of_value_fits v Hv). generalize (Np.dtype_of_value v).
  induction Hcells as [|w cells Hw _ IH]; intros t Ht; simpl; [exact Ht|].
  apply IH, promote_small; [exact Ht|now apply dtype_of_value_fits].
Qed.

(** Booleans, floats and integers of 64 bits make a numeric array. *)
Lemma array_numeric (cells : list pyval) :
  Forall (fun v => value_fits v = true) cells ->
  Np.numeric (Np.array cells) = true.
Proof.
  intros H. apply common_dtype_small in H. unfold Np.array.
  destruct (Np.common_dtype cells); try discriminate; reflexivity.
Qed.

Lemma is_number_fits (v : pyval) :
  value_fits v = true -> is_number v = true.
Proof. now destruct v. Qed.

Lemma int_too_large_fits (v : pyval) :
  value_fits v = true -> int_too_large v = false.
Proof.
  destruct v as [|b|n|x|s]; simpl; try reflexivity. intros H.
  apply andb_true_iff in H as [H1 H2].
  apply Z.leb_le in H1. apply Z.ltb_lt in H2.
  apply int_overflows_fit. lia.
Qed.

Section FitValues.
Variable features : dict.
Hypothesis Hfit : forallb (reads_fit features) feature_names = true.

Lemma reads_fit_at (k : string) :
  In k feature_names -> value_fits (dict_get features k zero) = true.
Proof using Hfit.
  intros Hk. rewrite forallb_forall in Hfit. now apply Hfit.
Qed.

Lemma reads_number_fit (ks : list string) :
  incl ks feature_names -> forallb (reads_number features) ks = true.
Proof using Hfit.
  intros Hincl. apply forallb_forall. intros k Hk.
  apply is_number_fits, reads_fit_at, Hincl, Hk.
Qed.

Lemma too_large_fit (k : string) :
  In k feature_names -> too_large features k = false.
Proof using Hfit.
  intros Hk. apply int_too_large_fits, reads_fit_at, Hk.
Qed.

Lemma normalize_features_fit :
  exists X : Np.ndarray,
    normalize_features (extract_feature_vector features) = Ok X /\
    Np.numeric X = true /\
    Np.ncols X = 7.
Proof using Hfit.
  assert (Hnum : Np.numeric (extract_feature_vector features) = true).
  { apply array_numeric.
    repeat first [apply List.Forall_cons | apply List.Forall_nil];
      apply reads_fit_at; simpl; tauto. }
  assert (Hcols : Np.ncols (extract_feature_vector features) = 7)
    by apply ncols_array.
  destruct (normalize_features_numeric _ Hnum) as (X & HX & HnumX & HcolsX);
    [lia|].
  exists X. split; [exact HX|]. split; [exact HnumX|]. lia.
Qed.

Lemma fallback_scoring_fit :
  exists s : float, fallback_scoring features = Ok s.
Proof using Hfit.
  pose proof (fallback_scoring_spec features) as H.
  destruct (fallback_scoring features) as [s|e]; [eauto|].
  destruct H as [[_ H]|(_ & _ & H)].
  - rewrite too_large_fit in H by (simpl; tauto). discriminate.
  - rewrite (reads_number_fit _ scoring_names_incl) in H. discriminate.
Qed.

Lemma get_feature_importance_fit :
  exists ranking : list contribution,
    forall c, get_feature_importance features c = Ok ranking.
Proof using Hfit.
  pose proof (feature_contributions_spec features) as H.
  destruct (feature_contributions features) as [enc|e] eqn:E.
  - exists (sort_desc abs_weight enc). intros c.
    now apply get_feature_importance_sorts.
  - destruct H as [[_ [H|H]]|[_ H]].
    + rewrite too_large_fit in H by (simpl; tauto). discriminate.
    + rewrite too_large_fit in H by (simpl; tauto). discriminate.
    + rewrite (reads_number_fit _ ranking_names_incl) in H. discriminate.
Qed.

(** Every step of [verify] returns on such values. *)
Lemma verify_try_fit (model : option predictor) (now : string)
    (data : request_body) :
  features_of data = FeaturesObject features ->
  exists r : response, verify_try model now data = Ok r.
Proof using Hfit.
  intros Hd.
  destruct normalize_features_fit as (X & HX & _ & _).
  destruct fallback_scoring_fit as (s & Hs).
  destruct get_feature_importance_fit as (rk & Hrk).
  unfold verify_try. rewrite Hd, HX. simpl.
  destruct model as [m|]; simpl.
  - destruct (m X) as [c|e]; simpl.
    + rewrite Hrk. simpl. eauto.
    + rewrite Hs. simpl. rewrite Hrk. simpl. eauto.
  - rewrite Hs. simpl. rewrite Hrk. simpl. eauto.
Qed.

End FitValues.

(** The Normalizer on the vector of any [features] object: what it returns
    has seven columns, and what it raises is a [TypeError] or an
    [OverflowError]. *)
Lemma gt_cases (X : Np.ndarray) (j : nat) (c : float) :
  j < Np.ncols X ->
  (exists b : bool, Np.gt X j c = Ok b) \/ Np.gt X j c = Raise TypeError.
Proof.
  intros Hj.
  destruct X as [row|row|row|row|row|row]; simpl in *;
    destruct (lookup_lt_is_Some_2 row j Hj) as [v ->]; eauto.
  destruct (gt_spec v c) as [(_ & b & ->)|(_ & ->)]; eauto.
Qed.

Lemma idiv_cases (X : Np.ndarray) (j : nat) (d : Z) :
  j < Np.ncols X ->
  (exists X' : Np.ndarray,
     Np.idiv X j d = Ok X' /\ Np.ncols X' = Np.ncols X) \/
  Np.idiv X j d = Raise TypeError \/
  Np.idiv X j d = Raise OverflowError.
Proof.
  intros Hj.
  destruct X as [row|row|row|row|row|row]; simpl in *;
    destruct (lookup_lt_is_Some_2 row j Hj) as [v ->]; auto;
    try (left; eexists; split; [reflexivity|]; simpl; apply length_insert).
  destruct v as [|b|n|x|s]; simpl; auto.
  - unfold int_truediv. destruct (int_overflows (Z.b2z b) d); simpl; auto.
    left. eexists; split; [reflexivity|]. simpl. apply length_insert.
  - unfold int_truediv. destruct (int_overflows n d); simpl; auto.
    left. eexists; split; [reflexivity|]. simpl. apply length_insert.
  - left. eexists; split; [reflexivity|]. simpl. apply length_insert.
Qed.

Ltac step_np_gt_cases :=
  match goal with
  | |- context [Np.gt ?X ?j ?c] =>
      let b := fresh "b" in
      let E := fresh "E" in
      destruct (gt_cases X j c) as [[b E]|E];
      [lia | rewrite E; simpl; destruct b; simpl | rewrite E; simpl; auto]
  end.

Ltac step_np_idiv_cases :=
  match goal with
  | |- context [Np.idiv ?X ?j ?d] =>
      let X' := fresh "X" in
      let E := fresh "E" in
      let Hcols := fresh "Hcols" in
      destruct (idiv_cases X j d) as [(X' & E & Hcols)|[E|E]];
      [lia | rewrite E; simpl | rewrite E; simpl; auto
      | rewrite E; simpl; auto]
  end.

Lemma normalize_features_cases (X : Np.ndarray) :
  5 <= Np.ncols X ->
  match normalize_features X with
  | Ok X' => Np.ncols X' = Np.ncols X
  | Raise e => e = TypeError \/ e = OverflowError
  end.
Proof.
  intros Hn. unfold normalize_features.
  repeat first [step_np_gt_cases | step_np_idiv_cases]; lia.
Qed.

(* ===================================================================== *)
(** ** Properties of the pipeline *)
(* ===================================================================== *)

(** C1 (the code departs from it).  When an artifact is loaded but its
    probability call raises, the confidence of the Verification Result is
    the rule-based score and yet [modelUsed] is ["ML"]: the field is
    computed from [model is not None] alone. *)
Theorem verify_reports_ML_after_fallback
    (fm : gmap string float) (now : string) (sid : option string) :
  exists r : response,
    verify (Some failing_model) now (body_of sid fm) = Reply200 r /\
    fallback_scoring (to_dict fm) = Ok (confidence r) /\
    modelUsed r = "ML".
Proof.
  destruct (verify_to_dict fm (Some failing_model) now sid)
    as (X & score & ranking & _ & Hscore & _ & Hv).
  eexists. split; [exact Hv|]. simpl. split; [exact Hscore|reflexivity].
Qed.

(** C2, as the spec states it, fails: on the empty Feature Mapping the
    rule-based strategy does not return 0.35. *)
Lemma fallback_scoring_empty_not_035 :
  fallback_scoring ∅ <> Ok 0.35%float.
Proof.
  intros H.
  apply (f_equal (fun r => match r with
                           | Ok x => (x <? 0.4)%float
                           | Raise _ => false
                           end)) in H.
  vm_compute in H. discriminate.
Qed.

(** C2, amended.  For the empty Feature Mapping every slot of the vector
    is 0 and the rule-based strategy returns exactly 0.5, computed as 0.5
    plus 0.15 (reaction time 0/1000 < 2) minus 0.10 (variance 0 <= 100000)
    minus 0.05 (accuracy <= 0.6), with no other adjustment; the sum lies
    within the clamp bounds and is returned unchanged. *)
Theorem fallback_scoring_empty :
  to_dict ∅ = ∅ /\
  extract_feature_vector ∅ = Np.Int64 [0; 0; 0; 0; 0; 0; 0]%Z /\
  fallback_score ∅ = Ok (0.5 + 0.15 - 0.10 - 0.05)%float /\
  clamp (0.5 + 0.15 - 0.10 - 0.05) = (0.5 + 0.15 - 0.10 - 0.05)%float /\
  fallback_scoring ∅ = Ok 0.5%float.
Proof.
  split; [apply fmap_empty|].
  repeat split; vm_compute; reflexivity.
Qed.

(** The integer that the scorer cannot divide: the default 0 is not one,
    so it is a value of the mapping. *)
Lemma too_large_number (nm : gmap string number) (k : string) :
  too_large (num_dict nm) k = true ->
  exists n : Z, nm !! k = Some (NInt n) /\ int_overflows n 1000 = true.
Proof.
  unfold too_large. rewrite dict_get_num_dict. unfold number_at.
  destruct (nm !! k) as [[n|x]|]; simpl; intros H.
  - eauto.
  - discriminate.
  - vm_compute in H. discriminate.
Qed.

(** C3, as the spec states it, fails: the integer 10^400 is a number, and
    on it the rule-based strategy raises an [OverflowError]. *)
Lemma fallback_scoring_huge_integer_raises :
  huge_reaction_time !! "avg_reaction_time" = Some (NInt (10 ^ 400)) /\
  fallback_scoring (num_dict huge_reaction_time) = Raise OverflowError.
Proof. split; vm_compute; reflexivity. Qed.

(** C3, amended.  For every Feature Mapping of floats (the empty mapping
    and values as large as 1e9 or infinite included) the rule-based
    strategy returns a score, in [0.2, 0.95].  For every Feature Mapping of
    numbers it returns a score in [0.2, 0.95] unless [avg_reaction_time] is
    an integer too large to be divided by 1000 into a float, where it
    raises an [OverflowError]. *)
Theorem fallback_scoring_range :
  (forall fm : gmap string float,
     exists s : float,
       fallback_scoring (to_dict fm) = Ok s /\
       (0.2 <=? s)%float = true /\
       (s <=? 0.95)%float = true) /\
  (forall nm : gmap string number,
     match fallback_scoring (num_dict nm) with
     | Ok s => (0.2 <=? s)%float = true /\ (s <=? 0.95)%float = true
     | Raise e =>
         e = OverflowError /\
         exists n : Z,
           nm !! "avg_reaction_time" = Some (NInt n) /\
           int_overflows n 1000 = true
     end).
Proof.
  split.
  - intros fm.
    destruct (fallback_scoring_to_dict fm) as (score & _ & Hs & Hlo & Hhi).
    exists (clamp score). auto.
  - intros nm. pose proof (fallback_scoring_spec (num_dict nm)) as H.
    destruct (fallback_scoring (num_dict nm)) as [s|e].
    + tauto.
    + destruct H as [[-> H]|(_ & _ & H)].
      * split; [reflexivity|]. now apply too_large_number.
      * rewrite reads_number_num_dict in H. discriminate.
Qed.




(** C6 (the code departs from it).  A request of integers only makes an
    [int64] vector, and there the Normalizer does not divide: it stores
    each quotient with its fraction cut off, so that 1800 ms becomes 1 and
    not 1.8, and 600 ms becomes 0.  The same request with its numbers
    written as floats is divided as the claim says.  The closed forms of
    both cases follow: on a [float64] vector each slot is divided exactly
    when its test on the input vector holds, slots 2, 5 and 6 are returned
    as they came; on an [int64] vector the same tests apply and the
    stored value is the quotient cut to an integer. *)
Theorem normalize_features_truncates_integers :
  normalize_features (extract_feature_vector (num_dict integer_only)) =
    Ok (Np.Int64 [1; 0; 0; 0; 5; 0; 0]%Z) /\
  normalize_features (extract_feature_vector (num_dict integer_only_as_floats)) =
    Ok (Np.Float64 [1.8; 0.5; 0; 0.6; 5; 0; 0]%float) /\
  (forall x0 x1 x2 x3 x4 x5 x6 : float,
     normalize_features (Np.Float64 [x0; x1; x2; x3; x4; x5; x6]) =
     Ok (Np.Float64
           [ if (100 <? x0)%float then (x0 / 1000)%float else x0;
             if (100000 <? x1)%float then (x1 / 1000000)%float else x1;
             x2;
             if (100 <? x0)%float then (x3 / 1000)%float else x3;
             if (1000 <? x4)%float then (x4 / 1000)%float else x4;
             x5;
             x6 ])) /\
  (forall n0 n1 n2 n3 n4 n5 n6 : Z,
     normalize_features (Np.Int64 [n0; n1; n2; n3; n4; n5; n6]) =
     Ok (Np.Int64
           [ if Z_gt_float n0 100
             then Np.Z_of_float (float_of_Z n0 / 1000) else n0;
             if Z_gt_float n1 100000
             then Np.Z_of_float (float_of_Z n1 / 1000000) else n1;
             n2;
             if Z_gt_float n0 100
             then Np.Z_of_float (float_of_Z n3 / 1000) else n3;
             if Z_gt_float n4 1000
             then Np.Z_of_float (float_of_Z n4 / 1000) else n4;
             n5;
             n6 ])).
Proof.
  split; [vm_compute; reflexivity|].
  split; [vm_compute; reflexivity|].
  split.
  - apply normalize_features_row.
  - apply normalize_features_int64_row.
Qed.

(** The sorted list against the order written out on the weights. *)
Lemma sort_desc_ranking (enc : list contribution) :
  Forall (key_number abs_weight) enc ->
  Permutation (sort_desc abs_weight enc) enc /\
  Sorted abs_weight_ge (sort_desc abs_weight enc) /\
  (forall w : float,
     abs_weight_ties w (sort_desc abs_weight enc) = abs_weight_ties w enc).
Proof.
  intros Hnum. split; [apply sort_desc_Permutation|]. split.
  - exact (sort_desc_Sorted abs_weight enc Hnum).
  - intros w. exact (sort_desc_ties abs_weight w enc).
Qed.

Lemma gt_of_number (x : number) (c : float) :
  gt (of_number x) c = Ok (number_gt x c).
Proof. now destruct x. Qed.

(** C7, as the spec states it, fails: on the integer 10^400 under
    [hesitation_time], a number, the Ranker returns no contribution: it
    raises an [OverflowError]. *)
Lemma get_feature_importance_huge_integer_raises :
  huge_hesitation_time !! "hesitation_time" = Some (NInt (10 ^ 400)) /\
  get_feature_importance (num_dict huge_hesitation_time) 0.5 =
    Raise OverflowError.
Proof. split; vm_compute; reflexivity. Qed.

(** C7, amended.  For every Feature Mapping of floats the Ranker returns
    exactly 6 contributions, the six it computed, in non-increasing order
    of absolute weight, contributions of equal absolute weight in the
    order in which they were computed; each has
    [positive = (weight >= 0)], and the [cursor_entropy] one has weight
    0.12 when cursor_direction_changes > 5 and 0.05 otherwise, positive
    both times.  For every Feature Mapping of numbers the Ranker returns
    such a ranking unless [avg_reaction_time] or [hesitation_time] is an
    integer too large to be divided by 1000 into a float, where it raises
    an [OverflowError]. *)
Theorem get_feature_importance_ranked :
  (forall (fm : gmap string float) (c : float),
     exists enc ranking : list contribution,
       feature_contributions (to_dict fm) = Ok enc /\
       get_feature_importance (to_dict fm) c = Ok ranking /\
       length ranking = 6 /\
       Permutation ranking enc /\
       Sorted (fun a b => (abs (weight b) <=? abs (weight a))%float = true)
         ranking /\
       (forall w : float,
          List.filter (fun x => (abs (weight x) =? w)%float) ranking =
          List.filter (fun x => (abs (weight x) =? w)%float) enc) /\
       Forall (fun x => positive x = (0 <=? weight x)%float) ranking /\
       In (Contribution "cursor_entropy"
             (if (5 <? feature fm "cursor_direction_changes")%float
              then 0.12 else 0.05)%float true) ranking) /\
  (forall (nm : gmap string number) (c : float),
     match get_feature_importance (num_dict nm) c with
     | Ok ranking =>
         exists enc : list contribution,
           feature_contributions (num_dict nm) = Ok enc /\
           length ranking = 6 /\
           Permutation ranking enc /\
           Sorted (fun a b => (abs (weight b) <=? abs (weight a))%float = true)
             ranking /\
           (forall w : float,
              List.filter (fun x => (abs (weight x) =? w)%float) ranking =
              List.filter (fun x => (abs (weight x) =? w)%float) enc) /\
           Forall (fun x => positive x = (0 <=? weight x)%float) ranking /\
           In (Contribution "cursor_entropy"
                 (if number_gt (number_at nm "cursor_direction_changes") 5
                  then 0.12 else 0.05)%float true) ranking
     | Raise e =>
         e = OverflowError /\
         ((exists n : Z,
             nm !! "avg_reaction_time" = Some (NInt n) /\
             int_overflows n 1000 = true) \/
          (exists n : Z,
             nm !! "hesitation_time" = Some (NInt n) /\
             int_overflows n 1000 = true))
     end).
Proof.
  split.
  - intros fm c.
    destruct (feature_contributions_to_dict fm)
      as (enc & Henc & Hlen & Hnum & Hpos & Hcur).
    destruct (sort_desc_ranking enc Hnum) as (Hperm & Hsorted & Hties).
    exists enc, (sort_desc abs_weight enc).
    split; [exact Henc|].
    split; [now apply get_feature_importance_sorts|].
    split; [now rewrite (Permutation_length Hperm)|].
    split; [exact Hperm|].
    split; [exact Hsorted|].
    split; [exact Hties|].
    split.
    + now rewrite Hperm.
    + apply (Permutation_in _ (Permutation_sym Hperm)), Hcur.
  - intros nm c.
    pose proof (feature_contributions_spec (num_dict nm)) as H.
    destruct (feature_contributions (num_dict nm)) as [enc|e] eqn:Eenc.
    + rewrite (get_feature_importance_sorts _ c _ Eenc).
      destruct H as (_ & _ & _ & Hlen & _ & Hnum & Hpos & b & Hb & Hcur).
      destruct (sort_desc_ranking enc Hnum) as (Hperm & Hsorted & Hties).
      rewrite dict_get_num_dict, gt_of_number in Hb.
      assert (b = number_gt (number_at nm "cursor_direction_changes") 5)
        by congruence.
      subst b.
      exists enc.
      split; [reflexivity|].
      split; [now rewrite (Permutation_length Hperm)|].
      split; [exact Hperm|].
      split; [exact Hsorted|].
      split; [exact Hties|].
      split.
      * now rewrite Hperm.
      * apply (Permutation_in _ (Permutation_sym Hperm)), Hcur.
    + rewrite (get_feature_importance_raises _ c _ Eenc).
      destruct H as [[-> H]|[_ H]].
      * split; [reflexivity|].
        destruct H as [H|H]; [left|right]; now apply too_large_number.
      * rewrite reads_number_num_dict in H. discriminate.
Qed.

(** C8.  The ranking is a function of the mapping alone: the confidence
    passed to the Ranker does not change its result, and two requests with
    the same Feature Mapping get the same ranking whatever artifact, if any,
    is loaded for each and whether or not its probability call returns. *)
Theorem get_feature_importance_deterministic :
  (forall (features : dict) (c1 c2 : float),
     get_feature_importance features c1 = get_feature_importance features c2) /\
  (forall (fm : gmap string float) (model1 model2 : option predictor)
          (now1 now2 : string) (sid1 sid2 : option string),
     exists r1 r2 : response,
       verify model1 now1 (body_of sid1 fm) = Reply200 r1 /\
       verify model2 now2 (body_of sid2 fm) = Reply200 r2 /\
       featureImportance r1 = featureImportance r2 /\
       forall c, get_feature_importance (to_dict fm) c = Ok (featureImportance r1)).
Proof.
  split; [reflexivity|].
  intros fm model1 model2 now1 now2 sid1 sid2.
  destruct (verify_to_dict fm model1 now1 sid1)
    as (X1 & s1 & ranking1 & _ & _ & Hr1 & Hv1).
  destruct (verify_to_dict fm model2 now2 sid2)
    as (X2 & s2 & ranking2 & _ & _ & Hr2 & Hv2).
  eexists _, _. split; [exact Hv1|]. split; [exact Hv2|]. simpl.
  split; [|exact Hr1].
  specialize (Hr1 0%float). specialize (Hr2 0%float). congruence.
Qed.

(** C9.  On the human-like sample with no artifact loaded the sum of the
    rule-based strategy before clamping exceeds 0.95, the confidence
    returned is exactly 0.95 and [modelUsed] is ["Rule-based"]. *)
Theorem verify_human_like_sample (now : string) (sid : option string) :
  exists (score : float) (r : response),
    fallback_score (to_dict human_like) = Ok score /\
    (0.95 <? score)%float = true /\
    fallback_scoring (to_dict human_like) = Ok 0.95%float /\
    verify None now (body_of sid human_like) = Reply200 r /\
    confidence r = 0.95%float /\
    modelUsed r = "Rule-based".
Proof.
  destruct (verify_to_dict human_like None now sid)
    as (X & s & ranking & _ & Hs & _ & Hv).
  assert (Hs' : fallback_scoring (to_dict human_like) = Ok 0.95%float)
    by (vm_compute; reflexivity).
  exists (0.5 + 0.15 + 0.15 + 0.10 + 0.10 + 0.10)%float.
  eexists. split; [vm_compute; reflexivity|].
  split; [vm_compute; reflexivity|].
  split; [exact Hs'|].
  split; [exact Hv|]. simpl.
  split; [congruence|reflexivity].
Qed.




(* ===================================================================== *)
(** ** Further properties of server.py *)
(* ===================================================================== *)

(** X1.  The reply of [verify], for every request and every artifact
    state.  A Verification Result is given to an object body only: it
    passes the session id through, echoes the [features] object as it came
    (unknown keys included), carries the clock's timestamp, the six-entry
    ranking of that object, and ["ML"] exactly when an artifact is loaded.
    The 500 error is the answer to a body that does not parse (no session
    id), to a [features] member that is not an object (an
    [AttributeError]), and to a [features] object on which a step raises:
    the exception is then a [TypeError] or an [OverflowError], never the
    artifact's, and one of the seven values read is not a boolean, a float
    or an integer of 64 bits.  On a body that is JSON but no object the
    handler raises itself. *)
Theorem verify_reply_cases (model : option predictor) (now : string)
    (req : request) :
  match verify model now req with
  | Reply200 r =>
      exists data : request_body,
        req = JsonObject data /\
        features_of data = FeaturesObject (features r) /\
        sessionId r = body_sessionId data /\
        timestamp r = now /\
        modelUsed r =
          match model with Some _ => "ML" | None => "Rule-based" end /\
        get_feature_importance (features r) (confidence r) =
          Ok (featureImportance r) /\
        length (featureImportance r) = 6
  | Reply500 e sid =>
      (req = NotJson /\ e = BadRequest /\ sid = None) \/
      exists data : request_body,
        req = JsonObject data /\
        sid = body_sessionId data /\
        match features_of data with
        | FeaturesOther => e = AttributeError
        | FeaturesObject d =>
            (e = TypeError \/ e = OverflowError) /\
            forallb (reads_fit d) feature_names = false
        end
  | Unhandled e => req = JsonOther /\ e = AttributeError
  end.
Proof.
  destruct (verify model now req) as [r|e sid|e] eqn:Hv.
  - destruct (verify_reply200_inv _ _ _ _ Hv)
      as (data & X & -> & Hd & _ & Hrk & Hsid & Hts & Hmu & _).
    exists data. split; [reflexivity|].
    repeat (split; [assumption|]).
    exact (get_feature_importance_length _ _ _ Hrk).
  - destruct req as [data| |]; simpl in Hv; [|discriminate|].
    2:{ left. split; [reflexivity|]. split; congruence. }
    right. exists data. split; [reflexivity|].
    destruct (verify_try model now data) as [r|e'] eqn:Ht; [discriminate|].
    assert (e' = e) by congruence. assert (sid = body_sessionId data)
      by congruence. subst e' sid.
    split; [reflexivity|].
    destruct (features_of data) as [d|] eqn:Hd.
    + split.
      * unfold verify_try in Ht. rewrite Hd in Ht.
        pose proof (normalize_features_cases (extract_feature_vector d)) as HN.
        assert (Hc : Np.ncols (extract_feature_vector d) = 7)
          by apply ncols_array.
        specialize (HN ltac:(rewrite Hc; lia)).
        destruct (normalize_features (extract_feature_vector d)) as [X|e0];
          simpl in Ht; [|assert (e0 = e) by congruence; subst; exact HN].
        assert (Hs : forall e1, fallback_scoring d = Raise e1 ->
                                e1 = TypeError \/ e1 = OverflowError).
        { intros e1 He1. pose proof (fallback_scoring_spec d) as H.
          rewrite He1 in H. destruct H as [[-> _]|[-> _]]; auto. }
        assert (Hr : forall c e1, get_feature_importance d c = Raise e1 ->
                                  e1 = TypeError \/ e1 = OverflowError).
        { intros c e1 He1. pose proof (feature_contributions_spec d) as H.
          destruct (feature_contributions d) as [enc|e2] eqn:E.
          - rewrite (get_feature_importance_sorts _ c _ E) in He1.
            discriminate.
          - rewrite (get_feature_importance_raises _ c _ E) in He1.
            assert (e2 = e1) by congruence. subst e2.
            destruct H as [[-> _]|[-> _]]; auto. }
        destruct model as [m|]; simpl in Ht.
        -- destruct (m X) as [c|e0]; simpl in Ht.
           ++ destruct (get_feature_importance d c) as [rk|e1] eqn:E1;
                simpl in Ht; [discriminate|].
              assert (e1 = e) by congruence. subst. eauto.
           ++ destruct (fallback_scoring d) as [s|e1] eqn:E1; simpl in Ht.
              ** destruct (get_feature_importance d s) as [rk|e2] eqn:E2;
                   simpl in Ht; [discriminate|].
                 assert (e2 = e) by congruence. subst. eauto.
              ** assert (e1 = e) by congruence. subst. eauto.
        -- destruct (fallback_scoring d) as [s|e1] eqn:E1; simpl in Ht.
           ++ destruct (get_feature_importance d s) as [rk|e2] eqn:E2;
                simpl in Ht; [discriminate|].
              assert (e2 = e) by congruence. subst. eauto.
           ++ assert (e1 = e) by congruence. subst. eauto.
      * destruct (forallb (reads_fit d) feature_names) eqn:Hfit;
          [|reflexivity].
        destruct (verify_try_fit d Hfit model now data Hd) as (r & Hr).
        congruence.
    + unfold verify_try in Ht. rewrite Hd in Ht. congruence.
  - destruct req as [data| |]; simpl in Hv; [|split; congruence|discriminate].
    destruct (verify_try model now data); discriminate.
Qed.

(** X2.  With no artifact loaded, a Verification Result always says
    ["Rule-based"], and its confidence is the rule-based score of the
    echoed [features] object, between 0.2 and 0.95. *)
Theorem verify_without_artifact (now : string) (req : request)
    (r : response) :
  verify None now req = Reply200 r ->
  modelUsed r = "Rule-based" /\
  fallback_scoring (features r) = Ok (confidence r) /\
  (0.2 <=? confidence r)%float = true /\
  (confidence r <=? 0.95)%float = true.
Proof.
  intros Hv.
  destruct (verify_reply200_inv _ _ _ _ Hv)
    as (data & X & _ & _ & _ & _ & _ & _ & Hmu & Hs).
  split; [exact Hmu|]. split; [exact Hs|].
  exact (fallback_scoring_bounds _ _ Hs).
Qed.

(** A request without a [features] member, no artifact loaded. *)
Lemma verify_without_artifact_witness :
  exists r : response,
    verify None "" (JsonObject (RequestBody None None)) = Reply200 r /\
    modelUsed r = "Rule-based" /\
    fallback_scoring (features r) = Ok (confidence r) /\
    (0.2 <=? confidence r)%float = true /\
    (confidence r <=? 0.95)%float = true.
Proof.
  eexists. split; [reflexivity|].
  eapply (verify_without_artifact "" (JsonObject (RequestBody None None))).
  reflexivity.
Defined.

(** X3.  When an artifact is loaded and its call returns, the confidence
    of the result is the returned probability as it is, not clamped; the
    artifact has been given the vector as the Normalizer left it, which
    for a request of integers is the vector of truncated quotients; and
    [modelUsed] is ["ML"]. *)
Theorem verify_model_probability (nm : gmap string number) (m : predictor)
    (now : string) (sid : option string) (X : Np.ndarray) (c : float) :
  numbers_fit nm = true ->
  normalize_features (extract_feature_vector (num_dict nm)) = Ok X ->
  m X = Ok c ->
  exists r : response,
    verify (Some m) now (request_of sid (num_dict nm)) = Reply200 r /\
    confidence r = c /\
    modelUsed r = "ML".
Proof.
  intros Hfit HX Hm.
  destruct (verify_numbers nm (Some m) now sid Hfit)
    as (X' & score & ranking & HX' & _ & _ & _ & Hv).
  assert (X' = X) by congruence. subst X'.
  eexists. split; [exact Hv|]. simpl. rewrite Hm. auto.
Qed.

(** An artifact that answers with cell 3 of its input, on the request of
    integers: it is given the [int64] vector in which 600 ms of hesitation
    have become 0, and the confidence is 0. *)
Lemma verify_model_probability_witness :
  numbers_fit integer_only = true /\
  normalize_features (extract_feature_vector (num_dict integer_only)) =
    Ok (Np.Int64 [1; 0; 0; 0; 5; 0; 0]%Z) /\
  cell3_model (Np.Int64 [1; 0; 0; 0; 5; 0; 0]%Z) = Ok 0%float /\
  exists r : response,
    verify (Some cell3_model) "" (request_of None (num_dict integer_only)) =
      Reply200 r /\
    confidence r = 0%float /\
    modelUsed r = "ML".
Proof.
  assert (H1 : numbers_fit integer_only = true) by reflexivity.
  assert (H2 : normalize_features
                 (extract_feature_vector (num_dict integer_only)) =
               Ok (Np.Int64 [1; 0; 0; 0; 5; 0; 0]%Z))
    by (vm_compute; reflexivity).
  assert (H3 : cell3_model (Np.Int64 [1; 0; 0; 0; 5; 0; 0]%Z) = Ok 0%float)
    by (vm_compute; reflexivity).
  split; [exact H1|]. split; [exact H2|]. split; [exact H3|].
  exact (verify_model_probability integer_only cell3_model "" None
           (Np.Int64 [1; 0; 0; 0; 5; 0; 0]%Z) 0%float H1 H2 H3).
Defined.

(** X4.  The Builder reads the seven feature names and nothing else: two
    [features] objects with the same entries under these names give the
    same vector. *)
Theorem extract_feature_vector_reads_seven (d1 d2 : dict) :
  agree_on feature_names d1 d2 ->
  extract_feature_vector d1 = extract_feature_vector d2.
Proof. apply extract_feature_vector_agree. Qed.

(** An unknown key next to the empty object. *)
Lemma extract_feature_vector_reads_seven_witness :
  extract_feature_vector ∅ =
  extract_feature_vector (<["mouse_clicks" := PyStr "many"]> ∅).
Proof.
  apply (extract_feature_vector_reads_seven
           ∅ (<["mouse_clicks" := PyStr "many"]> ∅)).
  unfold agree_on, feature_names. repeat constructor.
Defined.

(** X5.  The rule-based scorer reads five names only: it does not read
    [hesitation_time] or [cursor_path_length], so two objects that differ
    there, even by a text value, get the same score. *)
Theorem fallback_scoring_reads_five (d1 d2 : dict) :
  agree_on scoring_names d1 d2 ->
  fallback_scoring d1 = fallback_scoring d2.
Proof. apply fallback_scoring_agree. Qed.

(** A text hesitation time and a long path next to the empty object. *)
Lemma fallback_scoring_reads_five_witness :
  fallback_scoring ∅ =
  fallback_scoring (<["hesitation_time" := PyStr "long"]>
                      (<["cursor_path_length" := PyFloat 9999]> ∅)).
Proof.
  apply (fallback_scoring_reads_five
           ∅ (<["hesitation_time" := PyStr "long"]>
                (<["cursor_path_length" := PyFloat 9999]> ∅))).
  unfold agree_on, scoring_names. repeat constructor.
Defined.

(** X6.  The Ranker reads six names: all of the seven but
    [cursor_path_length].  Two objects with the same entries under these
    six get the same ranking, whatever confidence is passed. *)
Theorem get_feature_importance_reads_six (d1 d2 : dict) (c1 c2 : float) :
  agree_on ranking_names d1 d2 ->
  get_feature_importance d1 c1 = get_feature_importance d2 c2.
Proof. apply get_feature_importance_agree. Qed.

(** A text path length next to the empty object. *)
Lemma get_feature_importance_reads_six_witness :
  get_feature_importance ∅ 0.5 =
  get_feature_importance (<["cursor_path_length" := PyStr "far"]> ∅) 0.9.
Proof.
  apply (get_feature_importance_reads_six
           ∅ (<["cursor_path_length" := PyStr "far"]> ∅) 0.5 0.9).
  unfold agree_on, ranking_names. repeat constructor.
Defined.

(** X7.  The rule-based scorer on any [features] object of JSON scalars.
    It returns exactly when the five values it reads are numbers
    (booleans, integers, floats) and [avg_reaction_time] is not an integer
    too large to be divided by 1000 into a float; the score is then
    between 0.2 and 0.95.  It raises an [OverflowError] when
    [avg_reaction_time] is such an integer, and a [TypeError] otherwise:
    one of the five values is [null] or text. *)
Theorem fallback_scoring_cases (features : dict) :
  match fallback_scoring features with
  | Ok s =>
      forallb (reads_number features) scoring_names = true /\
      too_large features "avg_reaction_time" = false /\
      (0.2 <=? s)%float = true /\
      (s <=? 0.95)%float = true
  | Raise e =>
      (e = OverflowError /\
       too_large features "avg_reaction_time" = true) \/
      (e = TypeError /\
       too_large features "avg_reaction_time" = false /\
       forallb (reads_number features) scoring_names = false)
  end.
Proof.
  pose proof (fallback_scoring_spec features) as H.
  destruct (fallback_scoring features) as [s|e]; tauto.
Qed.

(** X8.  The Ranker on any [features] object of JSON scalars.  It returns
    exactly when the six values it reads are numbers and neither
    [avg_reaction_time] nor [hesitation_time] is an integer too large to
    be divided by 1000 into a float; it then returns six contributions.
    What it raises is an [OverflowError], on such an integer, or a
    [TypeError], on a [null] or a text among the six. *)
Theorem get_feature_importance_cases (features : dict) (c : float) :
  match get_feature_importance features c with
  | Ok ranking =>
      forallb (reads_number features) ranking_names = true /\
      too_large features "avg_reaction_time" = false /\
      too_large features "hesitation_time" = false /\
      length ranking = 6
  | Raise e =>
      (e = OverflowError /\
       (too_large features "avg_reaction_time" = true \/
        too_large features "hesitation_time" = true)) \/
      (e = TypeError /\
       forallb (reads_number features) ranking_names = false)
  end.
Proof.
  pose proof (feature_contributions_spec features) as H.
  destruct (feature_contributions features) as [enc|e] eqn:E.
  - rewrite (get_feature_importance_sorts _ c _ E).
    rewrite (Permutation_length (sort_desc_Permutation _ _)). tauto.
  - rewrite (get_feature_importance_raises _ c _ E). exact H.
Qed.

(** X9.  The sum of the rule-based adjustments never falls below 0.25, so
    the lower bound 0.2 of the clamp never applies: the score is the lesser
    of the sum and 0.95, and it is at least 0.25. *)
Theorem fallback_scoring_lower_clamp (fm : gmap string float) :
  exists score : float,
    fallback_score (to_dict fm) = Ok score /\
    (0.25 <=? score)%float = true /\
    fallback_scoring (to_dict fm) = Ok (Py.min 0.95 score) /\
    (0.25 <=? Py.min 0.95 score)%float = true.
Proof.
  unfold fallback_scoring, fallback_score.
  rewrite truediv_to_dict, !gt_to_dict by reflexivity. simpl.
  set (rt := (feature fm "avg_reaction_time" / 1000)%float).
  destruct (rt <? 2)%float, (5 <? rt)%float,
    (100000 <? feature fm "reaction_time_variance")%float,
    (0.6 <? feature fm "task_accuracy")%float,
    (5 <? feature fm "cursor_direction_changes")%float,
    (0.01 <? feature fm "speed_variance")%float;
    eexists; (split; [reflexivity|]); vm_compute; auto.
Qed.

(** X10.  The Normalizer on a [float64] array of any width: it raises an
    [IndexError] exactly when the row has fewer than 5 cells; otherwise it
    returns a [float64] array of the same width. *)
Theorem normalize_features_columns (row : list float) :
  match normalize_features (Np.Float64 row) with
  | Ok (Np.Float64 row') => 5 <= length row /\ length row' = length row
  | Ok _ => False
  | Raise e => e = IndexError /\ length row < 5
  end.
Proof.
  destruct row as [|x0 [|x1 [|x2 [|x3 [|x4 rest]]]]];
    unfold normalize_features; simpl;
    repeat (case_if; simpl); split; simpl; auto; lia.
Qed.

(** X11.  The first entry of the ranking is always a reaction-time signal:
    [avg_reaction_time] with weight 0.22 when the reaction time is under 2
    seconds, otherwise [reaction_time_variance] (0.18 when the variance is
    above 100000, -0.15 when not). *)
Theorem get_feature_importance_head (fm : gmap string float) (c : float) :
  exists ranking : list contribution,
    get_feature_importance (to_dict fm) c = Ok ranking /\
    head ranking =
    Some (if (feature fm "avg_reaction_time" / 1000 <? 2)%float
          then Contribution "avg_reaction_time" 0.22 true
          else if (100000 <? feature fm "reaction_time_variance")%float
          then Contribution "reaction_time_variance" 0.18 true
          else Contribution "reaction_time_variance" (-0.15) false).
Proof.
  unfold get_feature_importance, feature_contributions.
  rewrite !truediv_to_dict, !gt_to_dict by reflexivity.
  set (rt := (feature fm "avg_reaction_time" / 1000)%float).
  set (h := (feature fm "hesitation_time" / 1000)%float).
  eexists. split; [reflexivity|].
  destruct (rt <? 2)%float,
    (100000 <? feature fm "reaction_time_variance")%float,
    (0.6 <? feature fm "task_accuracy")%float,
    (5 <? feature fm "cursor_direction_changes")%float,
    (0.01 <? feature fm "speed_variance")%float,
    (0.2 <? h)%float, (h <? 1.5)%float, (h <? 0.2)%float;
    vm_compute; reflexivity.
Qed.

(** X12.  The six entries of the ranking are named, in some order,
    [avg_reaction_time], [reaction_time_variance], [task_accuracy],
    [cursor_entropy], [speed_variance] and [hesitation_time], each once:
    [cursor_path_length] is never ranked, and [cursor_direction_changes]
    appears under the name [cursor_entropy]. *)
Theorem get_feature_importance_names (fm : gmap string float) (c : float) :
  exists ranking : list contribution,
    get_feature_importance (to_dict fm) c = Ok ranking /\
    Permutation (map name ranking) signal_names.
Proof.
  assert (Henc : exists enc, feature_contributions (to_dict fm) = Ok enc /\
                             map name enc = signal_names).
  { unfold feature_contributions.
    rewrite !truediv_to_dict, !gt_to_dict by reflexivity. simpl.
    eexists. split; [reflexivity|].
    simpl. repeat case_if; reflexivity. }
  destruct Henc as (enc & Henc & Hnames).
  exists (sort_desc abs_weight enc).
  split; [now apply get_feature_importance_sorts|].
  rewrite <- Hnames.
  apply Permutation_map, sort_desc_Permutation.
Qed.

(** X18.  On a numeric array (floats, integers or booleans) that has the
    five columns the Normalizer reads, it raises nothing and returns a
    numeric array of the same width. *)
Theorem normalize_features_total_on_numbers (X : Np.ndarray) :
  Np.numeric X = true ->
  5 <= Np.ncols X ->
  exists X' : Np.ndarray,
    normalize_features X = Ok X' /\
    Np.numeric X' = true /\
    Np.ncols X' = Np.ncols X.
Proof. apply normalize_features_numeric. Qed.

(** A row of five unsigned integers. *)
Lemma normalize_features_total_on_numbers_witness :
  Np.numeric (Np.UInt64 [2 ^ 63; 0; 0; 7; 0]%Z) = true /\
  5 <= Np.ncols (Np.UInt64 [2 ^ 63; 0; 0; 7; 0]%Z) /\
  exists X' : Np.ndarray,
    normalize_features (Np.UInt64 [2 ^ 63; 0; 0; 7; 0]%Z) = Ok X' /\
    Np.numeric X' = true /\
    Np.ncols X' = Np.ncols (Np.UInt64 [2 ^ 63; 0; 0; 7; 0]%Z).
Proof.
  split; [reflexivity|]. split; [simpl; lia|].
  apply (normalize_features_total_on_numbers (Np.UInt64 [2 ^ 63; 0; 0; 7; 0]%Z));
    [reflexivity|simpl; lia].
Defined.

(* ===================================================================== *)
(** ** The artifact across train_model.py and server.py *)
(* ===================================================================== *)

(** X13.  [home], [stats] and [verify] agree on the artifact: the two
    status endpoints report the same [model_loaded], and a Verification
    Result says ["ML"] exactly when they report [true]. *)
Theorem model_loaded_agrees (model : option pyobject)
    (fm : gmap string float) (now : string) (sid : option string) :
  home_model_loaded (home model) = stats_model_loaded (stats model) /\
  exists r : response,
    verify_loaded model now (body_of sid fm) = Reply200 r /\
    modelUsed r =
      if stats_model_loaded (stats model) then "ML" else "Rule-based".
Proof.
  split; [reflexivity|].
  unfold verify_loaded.
  destruct (verify_to_dict fm (predict_proba_of <$> model) now sid)
    as (X & score & ranking & _ & _ & _ & Hv).
  eexists. split; [exact Hv|].
  destruct model; reflexivity.
Qed.

(** X14.  The [feature_count] that [stats] reports is the width of the
    vector the Builder makes from any [features] object, numeric or not,
    and the names it lists are those of [FEATURE_NAMES] of the training
    script, in the same order. *)
Theorem stats_feature_count (model : option pyobject) (features : dict) :
  Np.ncols (extract_feature_vector features) =
    stats_feature_count (stats model) /\
  stats_feature_count (stats model) = 7 /\
  stats_features (stats model) = FEATURE_NAMES.
Proof.
  split; [|split; reflexivity].
  unfold extract_feature_vector. now rewrite ncols_array.
Qed.

(** X15.  When [model.pkl] does not exist, [load_model] leaves the server
    without an artifact: the status says so and every Feature Mapping is
    answered by the rule-based strategy. *)
Theorem load_model_missing_file (files : gmap string pyobject)
    (fm : gmap string float) (now : string) (sid : option string) :
  files !! MODEL_PATH = None ->
  load_model files None = None /\
  home_model_loaded (home (load_model files None)) = false /\
  exists r : response,
    verify_loaded (load_model files None) now (body_of sid fm) = Reply200 r /\
    modelUsed r = "Rule-based" /\
    fallback_scoring (to_dict fm) = Ok (confidence r).
Proof.
  intros Hf. unfold load_model. rewrite Hf.
  split; [reflexivity|]. split; [reflexivity|].
  destruct (verify_to_dict fm None now sid)
    as (X & score & ranking & _ & Hs & _ & Hv).
  eexists. split; [exact Hv|]. simpl. auto.
Qed.

(** No file at all. *)
Lemma load_model_missing_file_witness :
  (∅ : gmap string pyobject) !! MODEL_PATH = None /\
  load_model ∅ None = None /\
  home_model_loaded (home (load_model ∅ None)) = false /\
  exists r : response,
    verify_loaded (load_model ∅ None) "" (body_of None ∅) = Reply200 r /\
    modelUsed r = "Rule-based" /\
    fallback_scoring (to_dict ∅) = Ok (confidence r).
Proof.
  split; [reflexivity|].
  apply (load_model_missing_file ∅ ∅ "" None). reflexivity.
Defined.

(** X16.  The file that [train_model] writes is a dict, not an estimator.
    Once [load_model] has read it, the server reports the artifact as
    loaded and every Verification Result says ["ML"], but the fitted
    estimator in the package is never asked: the confidence is the
    rule-based score, whatever the estimator would have answered. *)
Theorem trained_package_is_never_asked
    (fitted : predictor) (scaler0 : scaler) (model_type : string)
    (accuracy : float) (trained_at : string)
    (files : gmap string pyobject) (before : option pyobject)
    (fm : gmap string float) (now : string) (sid : option string) :
  let model :=
    load_model
      (train_model_save fitted scaler0 model_type accuracy trained_at files)
      before in
  stats_model_loaded (stats model) = true /\
  exists r : response,
    verify_loaded model now (body_of sid fm) = Reply200 r /\
    modelUsed r = "ML" /\
    fallback_scoring (to_dict fm) = Ok (confidence r).
Proof.
  unfold load_model, train_model_save, MODEL_PATH.
  rewrite lookup_insert_eq. simpl.
  split; [reflexivity|].
  unfold verify_loaded. simpl.
  destruct (verify_to_dict fm
              (Some (predict_proba_of
                       (PackageDict
                          {| pkg_model := fitted;
                             pkg_scaler := scaler0;
                             pkg_feature_names := FEATURE_NAMES;
                             pkg_model_type := model_type;
                             pkg_accuracy := accuracy;
                             pkg_trained_at := trained_at |})))
              now sid)
    as (X & score & ranking & _ & Hs & _ & Hv).
  eexists. split; [exact Hv|]. simpl. auto.
Qed.

(** X17.  Entries under other keys than the seven feature names have no
    influence on the answer: two requests whose [features] objects agree
    under the seven names get, from the same artifact, either the same
    error or results with the same confidence, ranking and [modelUsed]. *)
Theorem verify_reads_seven (model : option predictor) (now1 now2 : string)
    (sid1 sid2 : option string) (d1 d2 : dict) :
  agree_on feature_names d1 d2 ->
  match verify model now1 (request_of sid1 d1),
        verify model now2 (request_of sid2 d2) with
  | Reply200 r1, Reply200 r2 =>
      confidence r1 = confidence r2 /\
      featureImportance r1 = featureImportance r2 /\
      modelUsed r1 = modelUsed r2
  | Reply500 e1 _, Reply500 e2 _ => e1 = e2
  | _, _ => False
  end.
Proof.
  intros Hag.
  pose proof (extract_feature_vector_agree _ _ Hag) as HX.
  pose proof (fallback_scoring_agree _ _
                (agree_on_incl _ _ _ _ scoring_names_incl Hag)) as Hs.
  assert (Hr : forall c, get_feature_importance d1 c =
                         get_feature_importance d2 c)
    by (intros c; apply get_feature_importance_agree,
          (agree_on_incl _ _ _ _ ranking_names_incl Hag)).
  unfold verify, request_of, verify_try. simpl.
  rewrite HX, Hs.
  destruct (normalize_features (extract_feature_vector d2)) as [X|e]; simpl;
    [|reflexivity].
  destruct model as [m|]; simpl.
  - destruct (m X) as [c|e]; simpl.
    + rewrite Hr. destruct (get_feature_importance d2 c); simpl; auto.
    + destruct (fallback_scoring d2) as [s|e']; simpl; [|reflexivity].
      rewrite Hr. destruct (get_feature_importance d2 s); simpl; auto.
  - destruct (fallback_scoring d2) as [s|e']; simpl; [|reflexivity].
    rewrite Hr. destruct (get_feature_importance d2 s); simpl; auto.
Qed.

(** The empty object and one with an unknown text entry, no artifact. *)
Lemma verify_reads_seven_witness :
  match verify None "t1" (request_of None ∅),
        verify None "t2"
          (request_of (Some "s") (<["mouse_clicks" := PyStr "many"]> ∅))
  with
  | Reply200 r1, Reply200 r2 =>
      confidence r1 = confidence r2 /\
      featureImportance r1 = featureImportance r2 /\
      modelUsed r1 = modelUsed r2
  | Reply500 e1 _, Reply500 e2 _ => e1 = e2
  | _, _ => False
  end.
Proof.
  apply (verify_reads_seven None "t1" "t2" None (Some "s")
           ∅ (<["mouse_clicks" := PyStr "many"]> ∅)).
  unfold agree_on, feature_names. repeat constructor.
Defined.
